(** * Data Cleaning Application: a shallow embedding of [dataclean.py]

    The program is a Streamlit script: on every user interaction the whole
    script is executed again from the top, reading and writing one persistent
    slot, [st.session_state.data], which holds a pandas [DataFrame].

    The embedding has three layers.
    - [DataFrame] and the pandas operations the script calls ([isnull],
      [sum], [dropna], [fillna], [mean], [duplicated], [drop_duplicates],
      [drop]), with the semantics pandas documents for them.
    - The expressions and button handlers of the script, under the names the
      script gives them ([missing_count], [missing_data], [all_missing_cols],
      [duplicate_count], [duplicates], ...).
    - One execution of the cleaning tab, [script], as a function from the
      uploaded table, the clicked button and the session state to the new
      session state, the elements displayed and the way the run ended.

    The numbers held in cells are exact rationals in canonical form ([Qc]).
    The percentages of the missing-value report are IEEE 754 binary64
    numbers, computed with the operations of the Standard Library's
    [SpecFloat]. *)

From Stdlib Require Import String List ZArith QArith Qcanon Lia Bool Arith.
From Stdlib Require Import Permutation.
From Stdlib Require Import Floats.SpecFloat.
Import ListNotations.
Close Scope Qc_scope.
Close Scope Q_scope.
Open Scope string_scope.
Open Scope list_scope.
Open Scope nat_scope.

(** ** Tables *)

(** A cell value: a number, or a Python string. *)
Inductive value : Type :=
| VNum (x : Qc)
| VText (s : string).

(** A cell; [None] is the missing marker (NaN or None). *)
Definition cell : Type := option value.

Definition row : Type := list cell.

(** The dtypes the script distinguishes: [np.number], ['object'], and the
    rest (for instance the datetime columns [read_excel] produces). *)
Inductive dtype : Type := Numeric | Text | Other.

Record DataFrame : Type := mkDataFrame {
  columns : list (string * dtype);
  rows : list row
}.

Definition value_eq_dec (a b : value) : {a = b} + {a <> b}.
Proof.
  decide equality; [apply Qc_eq_dec | apply string_dec].
Defined.

Definition cell_eq_dec (a b : cell) : {a = b} + {a <> b}.
Proof.
  decide equality; apply value_eq_dec.
Defined.

(** Two rows are the same record when all their cells are equal; a missing
    cell equals a missing cell. *)
Definition row_eq_dec (a b : row) : {a = b} + {a <> b} :=
  list_eq_dec cell_eq_dec a b.

Definition dtype_eqb (a b : dtype) : bool :=
  match a, b with
  | Numeric, Numeric | Text, Text | Other, Other => true
  | _, _ => false
  end.

(** [len(df)] *)
Definition len (df : DataFrame) : nat := length (rows df).

Definition isnull (c : cell) : bool :=
  match c with
  | None => true
  | Some _ => false
  end.

Definition notnull (c : cell) : bool := negb (isnull c).

(** The cell of a row in column [j]. *)
Definition cell_at (j : nat) (r : row) : cell := nth j r None.

(** The cells of column number [j], top to bottom. *)
Definition column_cells (j : nat) (df : DataFrame) : list cell :=
  map (cell_at j) (rows df).

Fixpoint col_index (name : string) (cols : list (string * dtype)) : option nat :=
  match cols with
  | [] => None
  | (n, _) :: rest =>
      if String.eqb name n then Some 0
      else option_map S (col_index name rest)
  end.

(** [df[col]]: the column called [col]. *)
Definition get_column (df : DataFrame) (col : string) : option (list cell) :=
  option_map (fun j => column_cells j df) (col_index col (columns df)).

Definition enumerate {A : Type} (l : list A) : list (nat * A) :=
  combine (seq 0 (length l)) l.

(** [Series.sum()] of a boolean series. *)
Definition sum_bool (l : list bool) : nat := length (filter (fun b => b) l).

(** [Series.all()]; true on the empty series. *)
Definition all (l : list bool) : bool := forallb (fun b => b) l.

(** Boolean indexing, [xs[mask]]. *)
Fixpoint select {A : Type} (mask : list bool) (xs : list A) : list A :=
  match mask, xs with
  | b :: mask', x :: xs' => if b then x :: select mask' xs' else select mask' xs'
  | _, _ => []
  end.

(** ** Floating point results

    [numpy]'s float64 is IEEE 754 binary64: 53 bits of precision, exponents
    below 1024, every operation rounded to the nearest, ties to even. *)
Definition float64 : Type := spec_float.

(** The conversion of an integer to float64. *)
Definition f64_of_Z (z : Z) : float64 := binary_normalize 53 1024 z 0 false.

Definition f64_div : float64 -> float64 -> float64 := SFdiv 53 1024.

Definition f64_mul : float64 -> float64 -> float64 := SFmul 53 1024.

(** [np.rint]: the nearest integer, ties to the even one. A float with a
    negative exponent [- p] loses its last [p] bits, rounded; the others are
    integers, infinities or NaN already. *)
Definition np_rint (x : float64) : float64 :=
  match x with
  | S754_finite s m (Zneg p) =>
      let mrs := iter_pos shr_1 p (Build_shr_record (Zpos m) false false) in
      let n := round_nearest_even (shr_m mrs) (loc_of_shr_record mrs) in
      binary_normalize 53 1024 (cond_Zopp s n) 0 s
  | _ => x
  end.

(** [x.round(2)] on a float64 array: [rint(x * 100.0) / 100.0]. *)
Definition np_round2 (x : float64) : float64 :=
  f64_div (np_rint (f64_mul x (f64_of_Z 100))) (f64_of_Z 100).

(** ** pandas operations *)

(** [df.dropna()]: the rows without a missing cell. *)
Definition dropna (df : DataFrame) : DataFrame :=
  {| columns := columns df;
     rows := filter (forallb notnull) (rows df) |}.

(** [df.drop(columns=names)]; [None] is the [KeyError] raised for a name
    that is not a column. *)
Definition drop_columns (df : DataFrame) (names : list string) : option DataFrame :=
  let has n := existsb (String.eqb n) (map fst (columns df)) in
  if forallb has names then
    let keep := map (fun c => negb (existsb (String.eqb (fst c)) names)) (columns df) in
    Some {| columns := select keep (columns df);
            rows := map (select keep) (rows df) |}
  else None.

(** The numbers held in a list of cells. *)
Fixpoint numbers (cs : list cell) : list Qc :=
  match cs with
  | [] => []
  | Some (VNum x) :: rest => x :: numbers rest
  | _ :: rest => numbers rest
  end.

Definition Qc_of_nat (n : nat) : Qc := Q2Qc (inject_Z (Z.of_nat n)).

Definition Qcsum (xs : list Qc) : Qc := fold_right Qcplus (Q2Qc 0) xs.

(** [Series.mean()], which skips missing cells; [None] is the NaN of a
    column without a value. pandas computes the quotient in float64, in an
    order of summation of its own; the embedding keeps the exact quotient,
    and the properties below use only whether a mean exists. *)
Definition mean (cs : list cell) : option Qc :=
  match numbers cs with
  | [] => None
  | xs => Some (Qcsum xs / Qc_of_nat (length xs))%Qc
  end.

(** [row.fillna(vals)] with one fill value per column; a fill value that is
    itself missing leaves the cell as it is. *)
Fixpoint fillna_row (vals : list cell) (r : row) : row :=
  match r, vals with
  | [], _ => []
  | c :: r', [] => c :: r'
  | c :: r', v :: vals' =>
      match c with
      | Some x => Some x
      | None => v
      end :: fillna_row vals' r'
  end.

Definition fillna (vals : list cell) (df : DataFrame) : DataFrame :=
  {| columns := columns df;
     rows := map (fillna_row vals) (rows df) |}.

(** Whether a row equal to [r] is among [l]. *)
Definition mem (r : row) (l : list row) : bool :=
  if in_dec row_eq_dec r l then true else false.

(** [df.duplicated()], keep='first': a row is marked when an equal row
    comes before it. [seen] holds the rows already met. *)
Fixpoint duplicated_from (seen rs : list row) : list bool :=
  match rs with
  | [] => []
  | r :: rest => mem r seen :: duplicated_from (r :: seen) rest
  end.

(** [df.empty]: the frame has no rows or no columns. *)
Definition empty (df : DataFrame) : bool :=
  (len df =? 0) || (length (columns df) =? 0).

(** [df.duplicated()] returns an empty series for an empty frame, also for
    one that has rows and no columns. *)
Definition duplicated (df : DataFrame) : list bool :=
  if empty df then [] else duplicated_from [] (rows df).

(** [df.duplicated(keep=False)]: a row is marked when an equal row comes
    before it or after it. *)
Fixpoint duplicated_all_from (seen rs : list row) : list bool :=
  match rs with
  | [] => []
  | r :: rest =>
      (mem r seen || mem r rest) :: duplicated_all_from (r :: seen) rest
  end.

Definition duplicated_keep_False (df : DataFrame) : list bool :=
  if empty df then [] else duplicated_all_from [] (rows df).

(** [df[mask]] *)
Definition select_rows (mask : list bool) (df : DataFrame) : DataFrame :=
  {| columns := columns df; rows := select mask (rows df) |}.

(** [df.drop_duplicates(keep='first')], which is [df[-df.duplicated()]]
    with the rows marked one by one. The script calls it on line 132 only,
    where the duplicate count is not zero and the frame therefore not
    empty. *)
Definition drop_duplicates (df : DataFrame) : DataFrame :=
  select_rows (map negb (duplicated_from [] (rows df))) df.

(** [df.head(n)] *)
Definition head (n : nat) (df : DataFrame) : DataFrame :=
  {| columns := columns df; rows := firstn n (rows df) |}.

(** ** The expressions of the script *)

(** Line 55, [data.isnull().sum()]: the number of missing cells of every
    column, indexed by column name. *)
Definition missing_in (j : nat) (df : DataFrame) : nat :=
  sum_bool (map isnull (column_cells j df)).

Definition missing_count (df : DataFrame) : list (string * nat) :=
  map (fun jc : nat * (string * dtype) => (fst (snd jc), missing_in (fst jc) df))
      (enumerate (columns df)).

Record missing_row : Type := mkMissingRow {
  Column : string;
  Missing_Count : nat;
  Missing_Percentage : float64
}.

(** Line 59: [(missing_count.values / len(data) * 100).round(2)]. The
    count and the length become float64, the division of 0 by 0 is NaN. *)
Definition percentage (count n : nat) : float64 :=
  np_round2
    (f64_mul (f64_div (f64_of_Z (Z.of_nat count)) (f64_of_Z (Z.of_nat n)))
             (f64_of_Z 100)).

(** Lines 56-61: the frame of counts and percentages, then the rows whose
    count is positive. *)
Definition missing_data (df : DataFrame) : list missing_row :=
  filter (fun e => 0 <? Missing_Count e)
    (map (fun nc : string * nat =>
            {| Column := fst nc;
                       Missing_Count := snd nc;
                       Missing_Percentage := percentage (snd nc) (len df) |})
         (missing_count df)).

(** Lines 69-70, the comprehension
    [[col for col in data.columns if data[col].isnull().all()]].
    Every [col] is a column of [data], so [data[col]] is found. *)
Definition isnull_all_columns (df : DataFrame) : list string :=
  filter (fun col =>
            match get_column df col with
            | Some cs => all (map isnull cs)
            | None => false
            end)
         (map fst (columns df)).

(** The variable [all_missing_cols] after lines 55-70. It is bound in the
    [else] branch of line 63 only, when [missing_data] has a row; [None]
    says the script has not computed it. *)
Definition all_missing_cols (df : DataFrame) : option (list string) :=
  if length (missing_data df) =? 0 then None
  else Some (isnull_all_columns df).

(** Line 104: one flag per column, [select_dtypes(include=[np.number])]. *)
Definition numeric_cols (df : DataFrame) : list bool :=
  map (fun c : string * dtype => dtype_eqb (snd c) Numeric) (columns df).

(** Line 105: [select_dtypes(include=['object'])]. *)
Definition text_cols (df : DataFrame) : list bool :=
  map (fun c : string * dtype => dtype_eqb (snd c) Text) (columns df).

(** Line 108, [data[numeric_cols].mean()]: the mean of every numeric
    column, as the fill value of that column (none for the other columns). *)
Definition numeric_means (df : DataFrame) : list cell :=
  map (fun jb : nat * bool =>
         if snd jb
         then option_map VNum (mean (column_cells (fst jb) df))
         else None)
      (enumerate (numeric_cols df)).

(** Line 110: the constant ['Unknown'] for every text column. *)
Definition text_fills (df : DataFrame) : list cell :=
  map (fun b : bool => if b then Some (VText "Unknown") else None) (text_cols df).

(** Lines 104-110: numbers are filled with the average of their column,
    then text with "Unknown". *)
Definition fill_missing (df : DataFrame) : DataFrame :=
  let df1 := fillna (numeric_means df) df in
  fillna (text_fills df1) df1.

(** Line 117: [data.duplicated().sum()] *)
Definition duplicate_count (df : DataFrame) : nat := sum_bool (duplicated df).

(** Line 126: [data[data.duplicated(keep=False)]] *)
Definition duplicates (df : DataFrame) : DataFrame :=
  select_rows (duplicated_keep_False df) df.

(** ** One run of the cleaning tab *)

(** [st.session_state]: the key ['data'] is absent, or holds a table. *)
Definition SessionState : Type := option DataFrame.

(** Lines 46-47. *)
Definition initialize (data : DataFrame) (st : SessionState) : SessionState :=
  match st with
  | None => Some data
  | Some _ => st
  end.

Inductive button : Type :=
| RemoveEmptyColumns      (* line 76 *)
| DeleteRowsWithMissing   (* line 89 *)
| FillMissingValues       (* line 102 *)
| RemoveDuplicateRows.    (* line 131 *)

Definition button_eqb (a b : button) : bool :=
  match a, b with
  | RemoveEmptyColumns, RemoveEmptyColumns
  | DeleteRowsWithMissing, DeleteRowsWithMissing
  | FillMissingValues, FillMissingValues
  | RemoveDuplicateRows, RemoveDuplicateRows => true
  | _, _ => false
  end.

(** [st.button(...)]: true in the run that follows a click on it. *)
Definition pressed (b : button) (click : option button) : bool :=
  match click with
  | Some b' => button_eqb b b'
  | None => false
  end.

(** What the page displays. *)
Inductive element : Type :=
| NoMissingValues                          (* st.success, line 64 *)
| MissingTable (t : list missing_row)      (* st.dataframe, line 66 *)
| AllMissingWarning (cols : list string)   (* st.warning, line 73 *)
| RemoveEmptyTip                           (* st.info, line 74 *)
| RemovedEmptyColumns (n : nat)            (* st.success, line 78 *)
| WouldDeleteAllRows                       (* st.error, line 95 *)
| DeletedRows (removed : nat)              (* st.success, line 98 *)
| FilledAllMissing                         (* st.success, line 112 *)
| NoDuplicates                             (* st.success, line 120 *)
| FoundDuplicates (n : nat)                (* st.warning, line 122 *)
| DuplicatePreview (df : DataFrame)        (* st.dataframe, line 127 *)
| RemovedDuplicates (new_rows : nat)       (* st.success, line 133 *)
| Download (df : DataFrame).               (* lines 144-165 *)

Inductive level : Type := Success | Error | Warning | Info.

Definition level_of (e : element) : option level :=
  match e with
  | NoMissingValues | RemovedEmptyColumns _ | DeletedRows _
  | FilledAllMissing | NoDuplicates | RemovedDuplicates _ => Some Success
  | WouldDeleteAllRows => Some Error
  | AllMissingWarning _ | FoundDuplicates _ => Some Warning
  | RemoveEmptyTip => Some Info
  | MissingTable _ | DuplicatePreview _ | Download _ => None
  end.

(** An element that tells the user something went wrong. *)
Definition signals (e : element) : bool :=
  match level_of e with
  | Some Error | Some Warning => true
  | _ => false
  end.

(** How a piece of the script ends: it falls through to the next statement,
    calls [st.rerun()], calls [st.stop()], or raises. *)
Inductive ending : Type := Continue | Rerun | Stop | Raised.

(** The table held in the session, what was displayed, and the ending. *)
Record step : Type := mkStep {
  held : DataFrame;
  shown : list element;
  ended : ending
}.

Definition display (es : list element) (df : DataFrame) : step :=
  {| held := df; shown := es; ended := Continue |}.

(** Sequencing: the next statement runs only when the previous one fell
    through. *)
Definition and_then (a : step) (k : DataFrame -> step) : step :=
  match ended a with
  | Continue =>
      let b := k (held a) in
      {| held := held b; shown := shown a ++ shown b; ended := ended b |}
  | _ => a
  end.

Notation "a >>= k" := (and_then a k) (at level 50, left associativity).

(** [if st.button(...): handler] *)
Definition on_click (b : button) (click : option button)
    (handler : DataFrame -> step) (df : DataFrame) : step :=
  if pressed b click then handler df else display [] df.

(** Lines 77-79. *)
Definition remove_empty_columns (cols : list string) (df : DataFrame) : step :=
  match drop_columns df cols with
  | Some df' =>
      {| held := df'; shown := [RemovedEmptyColumns (length cols)]; ended := Rerun |}
  | None => {| held := df; shown := []; ended := Raised |}
  end.

(** Lines 90-99. The result of [dropna] is stored in the session on line
    91, before the test of line 94. *)
Definition delete_rows_with_missing (df : DataFrame) : step :=
  let original_rows := len df in
  let data := dropna df in
  let removed := original_rows - len data in
  if len data =? 0
  then {| held := data; shown := [WouldDeleteAllRows]; ended := Stop |}
  else {| held := data; shown := [DeletedRows removed]; ended := Rerun |}.

(** Lines 103-113. *)
Definition fill_missing_values (df : DataFrame) : step :=
  {| held := fill_missing df; shown := [FilledAllMissing]; ended := Rerun |}.

(** Lines 132-134. *)
Definition remove_duplicate_rows (df : DataFrame) : step :=
  let data := drop_duplicates df in
  {| held := data; shown := [RemovedDuplicates (len data)]; ended := Rerun |}.

(** Lines 69-81. *)
Definition empty_columns_block (click : option button) (df : DataFrame) : step :=
  let cols := isnull_all_columns df in
  match cols with
  | [] => display [] df
  | _ :: _ =>
      display [AllMissingWarning cols; RemoveEmptyTip] df
        >>= on_click RemoveEmptyColumns click (remove_empty_columns cols)
  end.

(** Lines 52-113. *)
Definition missing_values_section (click : option button) (df : DataFrame) : step :=
  if length (missing_data df) =? 0
  then display [NoMissingValues] df
  else
    display [MissingTable (missing_data df)] df
      >>= empty_columns_block click
      >>= on_click DeleteRowsWithMissing click delete_rows_with_missing
      >>= on_click FillMissingValues click fill_missing_values.

(** Lines 116-134. *)
Definition duplicates_section (click : option button) (df : DataFrame) : step :=
  if duplicate_count df =? 0
  then display [NoDuplicates] df
  else
    display [FoundDuplicates (duplicate_count df);
             DuplicatePreview (head 10 (duplicates df))] df
      >>= on_click RemoveDuplicateRows click remove_duplicate_rows.

(** Lines 137-165. *)
Definition download_section (df : DataFrame) : step :=
  display [Download df] df.

(** The session state, the page and the ending of one run. *)
Record run : Type := mkRun {
  session : SessionState;
  page : list element;
  outcome : ending
}.

(** Lines 44-165: one run of the cleaning tab on the uploaded table [data],
    after a click on [click] (or none), from session state [st]. *)
Definition script (data : DataFrame) (click : option button) (st : SessionState) : run :=
  match initialize data st with
  | Some df =>
      let s := missing_values_section click df
                 >>= duplicates_section click
                 >>= download_section in
      {| session := Some (held s); page := shown s; outcome := ended s |}
  | None => {| session := None; page := []; outcome := Raised |}
  end.

(** ** Scenarios of the specification *)

Definition num (z : Z) : cell := Some (VNum (Q2Qc (inject_Z z))).
Definition txt (s : string) : cell := Some (VText s).

(** Three rows, A = 1, missing, 3 and B = "x", "x", "y". *)
Definition scenario_fill : DataFrame :=
  {| columns := [("A", Numeric); ("B", Text)];
     rows := [[num 1; txt "x"]; [None; txt "x"]; [num 3; txt "y"]] |}.

(** Rows (1, "x"), (1, "x"), (2, "y"). *)
Definition scenario_duplicates : DataFrame :=
  {| columns := [("A", Numeric); ("B", Text)];
     rows := [[num 1; txt "x"]; [num 1; txt "x"]; [num 2; txt "y"]] |}.

(** Five rows, column A entirely missing. *)
Definition scenario_empty_column : DataFrame :=
  {| columns := [("A", Numeric); ("B", Text)];
     rows := [[None; txt "a"]; [None; txt "b"]; [None; txt "c"];
              [None; txt "d"]; [None; txt "e"]] |}.

(** One row, A = 1 and the numeric column B missing: the table read from
    the two lines [A,B] and [1,]. *)
Definition empty_numeric_column : DataFrame :=
  {| columns := [("A", Numeric); ("B", Numeric)];
     rows := [[num 1; None]] |}.

(** Two rows and two numeric columns, every cell missing: the table read
    from the three lines [A,B], [,] and [,]. *)
Definition entirely_missing : DataFrame :=
  {| columns := [("A", Numeric); ("B", Numeric)];
     rows := [[None; None]; [None; None]] |}.

(** What is left of it once its columns are dropped: two rows, no column. *)
Definition no_columns : DataFrame :=
  {| columns := []; rows := [[]; []] |}.

(** Two rows, each with one missing cell, and no column entirely missing:
    the table read from the three lines [A,B], [1,] and [,x]. *)
Definition incomplete_rows : DataFrame :=
  {| columns := [("A", Numeric); ("B", Text)];
     rows := [[num 1; None]; [None; txt "x"]] |}.

(** ** Specification-side notions *)

(** From the specification's words: the rows that are the first occurrence
    of their value, in the original order. The row at position [i] stays
    when no equal row stands at a position before [i]. *)
Definition first_occurrences (rs : list row) : list row :=
  map snd
    (filter (fun ir : nat * row => negb (mem (snd ir) (firstn (fst ir) rs)))
            (enumerate rs)).

(** From the specification's words: the number of distinct row values. *)
Definition distinct_rows (rs : list row) : nat :=
  length (nodup row_eq_dec rs).

(** From the specification's words: the rows whose value occurs at least
    twice, in the original order. *)
Definition in_duplicate_group (rs : list row) : list row :=
  filter (fun r => 2 <=? count_occ row_eq_dec rs r) rs.

(** Column names are unique. *)
Definition unique_names (df : DataFrame) : Prop :=
  NoDup (map fst (columns df)).

(** From the specification's words: [fill_missing] resolves the undefined
    mean of column [j]. Either the column is filled with 0, or it is left as
    it was and the fill action signals a warning or an error. *)
Definition zero_filled_or_signalled (df : DataFrame) (j : nat) : Prop :=
  let s := fill_missing_values df in
  (forall r, In r (rows (held s)) -> cell_at j r = num 0) \/
  (column_cells j (held s) = column_cells j df /\
   exists e, In e (shown s) /\ signals e = true).

(** ** Auxiliary notions for the proofs *)

(** A piece of the script that falls through with table [df] held. *)
Definition falls_through (s : step) (df : DataFrame) : Prop :=
  held s = df /\ ended s = Continue.

(** The rows [drop_duplicates] keeps, as a recursion of its own. *)
Fixpoint kept_from (seen rs : list row) : list row :=
  match rs with
  | [] => []
  | r :: rest =>
      if mem r seen then kept_from (r :: seen) rest
      else r :: kept_from (r :: seen) rest
  end.

(** Every row has one cell per column. *)
Definition rectangular (df : DataFrame) : Prop :=
  forall r, In r (rows df) -> length r = length (columns df).

(** No cell of the table is missing. *)
Definition complete (df : DataFrame) : Prop :=
  forall r, In r (rows df) -> forallb notnull r = true.

(** * Properties *)

(** ** Session state *)

Lemma falls_through_display (es : list element) (df : DataFrame) :
  falls_through (display es df) df.
Proof. split; reflexivity. Qed.

Lemma falls_through_and_then (a : step) (k : DataFrame -> step) (df df' : DataFrame) :
  falls_through a df -> falls_through (k df) df' -> falls_through (a >>= k) df'.
Proof.
  intros [Hh He] [Hh' He']. unfold and_then. rewrite He, Hh.
  split; assumption.
Qed.

Section Revisit.

Variable click : option button.
Hypothesis no_click : click = None.

Lemma on_click_none (b : button) (h : DataFrame -> step) (df : DataFrame) :
  falls_through (on_click b click h df) df.
Proof. subst click. apply falls_through_display. Qed.

Lemma empty_columns_block_idle (df : DataFrame) :
  falls_through (empty_columns_block click df) df.
Proof.
  unfold empty_columns_block.
  destruct (isnull_all_columns df); [apply falls_through_display|].
  eapply falls_through_and_then;
    [apply falls_through_display | apply on_click_none].
Qed.

Lemma missing_values_section_idle (df : DataFrame) :
  falls_through (missing_values_section click df) df.
Proof.
  unfold missing_values_section.
  destruct (length (missing_data df) =? 0); [apply falls_through_display|].
  repeat (eapply falls_through_and_then);
    [ apply falls_through_display | apply empty_columns_block_idle
    | apply on_click_none | apply on_click_none ].
Qed.

Lemma duplicates_section_idle (df : DataFrame) :
  falls_through (duplicates_section click df) df.
Proof.
  unfold duplicates_section.
  destruct (duplicate_count df =? 0); [apply falls_through_display|].
  eapply falls_through_and_then;
    [apply falls_through_display | apply on_click_none].
Qed.

Lemma script_idle (data df : DataFrame) :
  session (script data click (Some df)) = Some df.
Proof.
  unfold script, initialize. cbn [session]. f_equal.
  refine (proj1 (_ : falls_through _ df)).
  repeat (eapply falls_through_and_then);
    [ apply missing_values_section_idle | apply duplicates_section_idle
    | apply falls_through_display ].
Qed.

End Revisit.

(** C9. [initialize] takes effect only once in a session: the first call
    stores the uploaded table, and every later call, with whatever table,
    leaves the held table as it is; a run of the script that only revisits
    the page (no button clicked) keeps the table held in the session, even
    when the uploaded table differs from it. *)
Theorem initialize_only_once :
  (forall data, initialize data None = Some data) /\
  (forall data df, initialize data (Some df) = Some df) /\
  (forall data data' st,
      initialize data' (initialize data st) = initialize data st) /\
  (forall data df, session (script data None (Some df)) = Some df).
Proof.
  repeat split.
  - intros data data' [df|]; reflexivity.
  - intros data df. apply script_idle. reflexivity.
Qed.

(** ** Duplicate rows *)

Lemma mem_In (r : row) (l : list row) : mem r l = true <-> In r l.
Proof.
  unfold mem. destruct (in_dec row_eq_dec r l); split; auto; discriminate.
Qed.

Lemma mem_not_In (r : row) (l : list row) : mem r l = false <-> ~ In r l.
Proof.
  unfold mem. destruct (in_dec row_eq_dec r l); split; auto;
    [discriminate | contradiction].
Qed.

Lemma mem_ext (r : row) (l l' : list row) :
  (forall x, In x l <-> In x l') -> mem r l = mem r l'.
Proof.
  intros H. destruct (mem r l') eqn:E.
  - apply mem_In, H, mem_In, E.
  - apply mem_not_In. intros Hin. apply mem_not_In in E. apply E, H, Hin.
Qed.

Lemma select_not_duplicated (seen rs : list row) :
  select (map negb (duplicated_from seen rs)) rs = kept_from seen rs.
Proof.
  revert seen. induction rs as [|r rest IH]; intros seen; simpl; [reflexivity|].
  rewrite IH. destruct (mem r seen); reflexivity.
Qed.

Lemma rows_drop_duplicates (df : DataFrame) :
  rows (drop_duplicates df) = kept_from [] (rows df).
Proof. apply select_not_duplicated. Qed.

Lemma kept_from_In (seen rs : list row) (x : row) :
  In x (kept_from seen rs) <-> In x rs /\ ~ In x seen.
Proof.
  revert seen. induction rs as [|r rest IH]; intros seen; simpl.
  - tauto.
  - destruct (mem r seen) eqn:E.
    + apply mem_In in E. rewrite IH. simpl. split.
      * intros [Hin Hn]. split; [right; exact Hin | tauto].
      * intros [[Heq | Hin] Hn]; [subst; contradiction|].
        split; [exact Hin|]. intros [Heq | Hs]; [subst|]; tauto.
    + apply mem_not_In in E. simpl. rewrite IH. simpl. split.
      * intros [Heq | [Hin Hn]]; [subst; tauto | tauto].
      * intros [[Heq | Hin] Hn]; [left; exact Heq|].
        destruct (row_eq_dec r x) as [Heq | Hne]; [left; exact Heq|].
        right. split; [exact Hin|]. intros [Heq | Hs]; tauto.
Qed.

Lemma kept_from_NoDup (seen rs : list row) : NoDup (kept_from seen rs).
Proof.
  revert seen. induction rs as [|r rest IH]; intros seen; simpl.
  - constructor.
  - destruct (mem r seen); [apply IH|].
    constructor; [|apply IH].
    rewrite kept_from_In. simpl. tauto.
Qed.

Lemma kept_from_fixed (seen rs : list row) :
  NoDup rs -> (forall x, In x rs -> ~ In x seen) -> kept_from seen rs = rs.
Proof.
  revert seen. induction rs as [|r rest IH]; intros seen Hnd Hfresh; simpl.
  - reflexivity.
  - inversion Hnd as [|? ? Hnotin Hnd']; subst.
    assert (E : mem r seen = false)
      by (apply mem_not_In, Hfresh; left; reflexivity).
    rewrite E. f_equal. apply IH; [exact Hnd'|].
    intros x Hx [Heq | Hs]; [subst; contradiction|].
    apply (Hfresh x); [right; exact Hx | exact Hs].
Qed.

Lemma firstn_length_app {A : Type} (pre rs : list A) :
  firstn (length pre) (pre ++ rs) = pre.
Proof.
  induction pre as [|a pre IH]; simpl; [destruct rs; reflexivity|].
  rewrite IH. reflexivity.
Qed.

Lemma kept_from_first_occurrences (whole pre rs seen : list row) :
  whole = pre ++ rs ->
  (forall x, In x seen <-> In x pre) ->
  kept_from seen rs =
  map snd
    (filter (fun ir : nat * row => negb (mem (snd ir) (firstn (fst ir) whole)))
            (combine (seq (length pre) (length rs)) rs)).
Proof.
  revert pre seen. induction rs as [|r rest IH]; intros pre seen Hw Hseen.
  - reflexivity.
  - cbn [kept_from length seq combine filter fst snd].
    assert (Hfirst : firstn (length pre) whole = pre)
      by (subst whole; apply firstn_length_app).
    rewrite Hfirst, (mem_ext r seen pre Hseen).
    assert (Hrec : kept_from (r :: seen) rest =
                   map snd
                     (filter (fun ir : nat * row =>
                                negb (mem (snd ir) (firstn (fst ir) whole)))
                             (combine (seq (S (length pre)) (length rest)) rest))).
    { replace (S (length pre)) with (length (pre ++ [r]))
        by (rewrite length_app; simpl; lia).
      apply IH.
      - subst whole. rewrite <- app_assoc. reflexivity.
      - intros x. simpl. rewrite in_app_iff, Hseen. simpl. tauto. }
    rewrite Hrec. destruct (mem r pre); reflexivity.
Qed.

(** C7. [drop_duplicates] keeps the columns and, of the rows, exactly the
    first occurrence of every distinct row value, in the original order: the
    result is the list of the rows that have no equal row before them; no row
    value occurs twice in it, and every row value of the table occurs in it. *)
Theorem drop_duplicates_keeps_first_occurrences (df : DataFrame) :
  columns (drop_duplicates df) = columns df /\
  rows (drop_duplicates df) = first_occurrences (rows df) /\
  NoDup (rows (drop_duplicates df)) /\
  (forall r, In r (rows (drop_duplicates df)) <-> In r (rows df)).
Proof.
  rewrite rows_drop_duplicates. repeat split.
  - unfold first_occurrences, enumerate.
    apply (kept_from_first_occurrences (rows df) [] (rows df) []);
      [reflexivity | tauto].
  - apply kept_from_NoDup.
  - intros H. apply kept_from_In in H. tauto.
  - intros H. apply kept_from_In. simpl. tauto.
Qed.

(** C8. [drop_duplicates] is idempotent: applied to its own result it
    returns that result. *)
Theorem drop_duplicates_idempotent (df : DataFrame) :
  drop_duplicates (drop_duplicates df) = drop_duplicates df.
Proof.
  destruct (drop_duplicates df) as [cols rs] eqn:E.
  assert (Hrows : rows (drop_duplicates df) = rs) by (rewrite E; reflexivity).
  rewrite rows_drop_duplicates in Hrows.
  unfold drop_duplicates, select_rows, duplicated. cbn [columns rows].
  f_equal. rewrite select_not_duplicated. apply kept_from_fixed.
  - rewrite <- Hrows. apply kept_from_NoDup.
  - intros x _ [].
Qed.

Lemma duplicated_plus_kept (seen rs : list row) :
  sum_bool (duplicated_from seen rs) + length (kept_from seen rs) = length rs.
Proof.
  unfold sum_bool. revert seen.
  induction rs as [|r rest IH]; intros seen; simpl; [reflexivity|].
  specialize (IH (r :: seen)). destruct (mem r seen); simpl; lia.
Qed.

Lemma length_kept_distinct (rs : list row) :
  length (kept_from [] rs) = distinct_rows rs.
Proof.
  unfold distinct_rows. apply Permutation_length, NoDup_Permutation.
  - apply kept_from_NoDup.
  - apply NoDup_nodup.
  - intros x. rewrite kept_from_In, nodup_In. simpl. tauto.
Qed.

Lemma count_occ_twice (pre rest : list row) (r : row) :
  (2 <=? count_occ row_eq_dec (pre ++ r :: rest) r) = mem r pre || mem r rest.
Proof.
  rewrite count_occ_app, count_occ_cons_eq by reflexivity.
  destruct (mem r pre) eqn:Ep; destruct (mem r rest) eqn:Er; cbn [orb].
  - apply mem_In, (count_occ_In row_eq_dec) in Ep. apply Nat.leb_le. lia.
  - apply mem_In, (count_occ_In row_eq_dec) in Ep. apply Nat.leb_le. lia.
  - apply mem_In, (count_occ_In row_eq_dec) in Er. apply Nat.leb_le. lia.
  - apply mem_not_In, (count_occ_not_In row_eq_dec) in Ep.
    apply mem_not_In, (count_occ_not_In row_eq_dec) in Er.
    rewrite Ep, Er. reflexivity.
Qed.

Lemma select_duplicated_all (whole pre rs seen : list row) :
  whole = pre ++ rs ->
  (forall x, In x seen <-> In x pre) ->
  select (duplicated_all_from seen rs) rs =
  filter (fun r => 2 <=? count_occ row_eq_dec whole r) rs.
Proof.
  revert pre seen. induction rs as [|r rest IH]; intros pre seen Hw Hseen.
  - reflexivity.
  - cbn [duplicated_all_from select filter].
    assert (Hhere : (2 <=? count_occ row_eq_dec whole r) = mem r seen || mem r rest)
      by (subst whole; rewrite (mem_ext r seen pre Hseen); apply count_occ_twice).
    rewrite Hhere.
    rewrite (IH (pre ++ [r]) (r :: seen)).
    + reflexivity.
    + subst whole. rewrite <- app_assoc. reflexivity.
    + intros x. simpl. rewrite in_app_iff, Hseen. simpl. tauto.
Qed.

Lemma empty_rows (df : DataFrame) :
  columns df <> [] -> empty df = true -> rows df = [].
Proof.
  intros Hcols H. unfold empty in H. apply orb_true_iff in H.
  destruct H as [H | H]; apply Nat.eqb_eq, length_zero_iff_nil in H;
    [exact H | contradiction].
Qed.

Lemma duplicated_with_columns (df : DataFrame) :
  columns df <> [] -> duplicated df = duplicated_from [] (rows df).
Proof.
  intros Hcols. unfold duplicated. destruct (empty df) eqn:E; [|reflexivity].
  rewrite (empty_rows df Hcols E). reflexivity.
Qed.

Lemma rows_duplicates (df : DataFrame) :
  columns df <> [] -> rows (duplicates df) = in_duplicate_group (rows df).
Proof.
  intros Hcols. unfold duplicates, duplicated_keep_False, select_rows.
  cbn [rows]. destruct (empty df) eqn:E.
  - rewrite (empty_rows df Hcols E). reflexivity.
  - apply (select_duplicated_all (rows df) [] (rows df) []);
      [reflexivity | tauto].
Qed.

Lemma duplicate_count_without_columns (df : DataFrame) :
  columns df = [] -> duplicate_count df = 0.
Proof.
  intros Hcols. unfold duplicate_count, duplicated, empty. rewrite Hcols.
  rewrite orb_true_r. reflexivity.
Qed.

Lemma scenario_duplicates_columns : columns scenario_duplicates <> [].
Proof. discriminate. Qed.

(** C6, as the script has it. On a table with at least one column, the
    duplicate count is the number of rows minus the number of distinct row
    values (rows with equal cells, missing equal to missing, are one value),
    and the preview holds, in the original order, the rows whose value
    occurs at least twice. On the rows (1,"x"), (1,"x"), (2,"y") the count
    is 1 and the preview is the two (1,"x") rows. On a table without
    columns the count is 0, whatever its rows. *)
Theorem duplicate_report (df : DataFrame) (Hcols : columns df <> []) :
  duplicate_count df = len df - distinct_rows (rows df) /\
  distinct_rows (rows df) <= len df /\
  columns (duplicates df) = columns df /\
  rows (duplicates df) = in_duplicate_group (rows df) /\
  duplicate_count scenario_duplicates = 1 /\
  rows (duplicates scenario_duplicates) = [[num 1; txt "x"]; [num 1; txt "x"]] /\
  (forall df0, columns df0 = [] -> duplicate_count df0 = 0).
Proof.
  pose proof (duplicated_plus_kept [] (rows df)) as Hsum.
  rewrite length_kept_distinct in Hsum.
  unfold duplicate_count, len. rewrite (duplicated_with_columns df Hcols).
  split; [lia|]. split; [lia|]. split; [reflexivity|].
  split; [exact (rows_duplicates df Hcols)|].
  split; [vm_compute; reflexivity|]. split; [vm_compute; reflexivity|].
  exact duplicate_count_without_columns.
Qed.

Lemma duplicate_report_witness :
  duplicate_count scenario_duplicates =
    len scenario_duplicates - distinct_rows (rows scenario_duplicates) /\
  rows (duplicates scenario_duplicates) =
    in_duplicate_group (rows scenario_duplicates).
Proof.
  pose proof (duplicate_report scenario_duplicates scenario_duplicates_columns)
    as H.
  split; [exact (proj1 H) | exact (proj1 (proj2 (proj2 (proj2 H))))].
Defined.

(** C6, as the specification states it, fails on the table with two rows
    and no columns, which a click on the remove-empty-columns button leaves
    in the session when every column of a two-row table is entirely
    missing: its two rows are equal, so that the number of rows minus the
    number of distinct rows is 1, and the count of line 117 is 0. *)
Lemma duplicate_count_of_no_columns :
  session (script entirely_missing (Some RemoveEmptyColumns)
                  (Some entirely_missing)) = Some no_columns /\
  len no_columns - distinct_rows (rows no_columns) = 1 /\
  duplicate_count no_columns = 0 /\
  duplicate_count no_columns <> len no_columns - distinct_rows (rows no_columns).
Proof.
  split; [vm_compute; reflexivity|]. split; [vm_compute; reflexivity|].
  split; [vm_compute; reflexivity|]. vm_compute. discriminate.
Qed.

(** ** Filling missing values *)

Lemma fillna_row_length (vals : list cell) (r : row) :
  length (fillna_row vals r) = length r.
Proof.
  revert vals. induction r as [|c r IH]; intros [|v vals]; simpl; auto.
Qed.

Lemma fillna_row_present (vals : list cell) (r : row) (j : nat) (v : value) :
  nth_error r j = Some (Some v) ->
  nth_error (fillna_row vals r) j = Some (Some v).
Proof.
  revert vals j. induction r as [|c r IH]; intros vals j H.
  - destruct j; discriminate.
  - destruct vals as [|w vals]; [exact H|].
    destruct j as [|j]; simpl in *.
    + injection H as ->. reflexivity.
    + apply IH, H.
Qed.


Lemma fillna_row_stays_missing (vals : list cell) (r : row) (j : nat) :
  cell_at j r = None -> nth j vals None = None ->
  cell_at j (fillna_row vals r) = None.
Proof.
  unfold cell_at. revert vals j. induction r as [|c r IH]; intros vals j H Hv.
  - destruct vals, j; reflexivity.
  - destruct vals as [|w vals]; [exact H|].
    destruct j as [|j]; simpl in *.
    + subst. reflexivity.
    + apply IH; assumption.
Qed.

Lemma nth_error_combine_seq {A : Type} (l : list A) (s j : nat) :
  nth_error (combine (seq s (length l)) l) j =
  option_map (pair (s + j)) (nth_error l j).
Proof.
  revert s j. induction l as [|a l IH]; intros s j; simpl.
  - destruct j; reflexivity.
  - destruct j as [|j]; simpl.
    + rewrite Nat.add_0_r. reflexivity.
    + rewrite IH. replace (S s + j) with (s + S j) by lia. reflexivity.
Qed.

Lemma nth_error_enumerate {A : Type} (l : list A) (j : nat) :
  nth_error (enumerate l) j = option_map (pair j) (nth_error l j).
Proof. apply (nth_error_combine_seq l 0 j). Qed.

Lemma nth_from_nth_error {A : Type} (l : list A) (j : nat) (d : A) :
  nth j l d = match nth_error l j with Some x => x | None => d end.
Proof.
  revert j. induction l as [|a l IH]; intros [|j]; simpl; auto.
Qed.

Lemma nth_numeric_means (df : DataFrame) (j : nat) :
  nth j (numeric_means df) None =
  match nth_error (columns df) j with
  | Some (_, Numeric) => option_map VNum (mean (column_cells j df))
  | _ => None
  end.
Proof.
  rewrite nth_from_nth_error. unfold numeric_means, numeric_cols.
  rewrite nth_error_map, nth_error_enumerate, nth_error_map.
  destruct (nth_error (columns df) j) as [[name [| |]]|]; reflexivity.
Qed.

Lemma nth_text_fills (df : DataFrame) (j : nat) :
  nth j (text_fills df) None =
  match nth_error (columns df) j with
  | Some (_, Text) => Some (VText "Unknown")
  | _ => None
  end.
Proof.
  rewrite nth_from_nth_error. unfold text_fills, text_cols.
  rewrite !nth_error_map.
  destruct (nth_error (columns df) j) as [[name [| |]]|]; reflexivity.
Qed.

Lemma rows_fill_missing (df : DataFrame) :
  rows (fill_missing df) =
  map (fun r => fillna_row (text_fills df) (fillna_row (numeric_means df) r))
      (rows df).
Proof.
  unfold fill_missing, fillna. cbn [rows columns]. rewrite map_map.
  reflexivity.
Qed.

(** C10. [fill_missing] changes missing cells only: the columns (names,
    order, dtypes) and the number of rows are the same, every row keeps its
    length, and every cell that holds a value holds the same value
    afterwards. *)
Theorem fill_missing_frame (df : DataFrame) :
  columns (fill_missing df) = columns df /\
  len (fill_missing df) = len df /\
  forall i r,
    nth_error (rows df) i = Some r ->
    exists r',
      nth_error (rows (fill_missing df)) i = Some r' /\
      length r' = length r /\
      forall j v, nth_error r j = Some (Some v) ->
                  nth_error r' j = Some (Some v).
Proof.
  split; [reflexivity|]. split.
  - unfold len. rewrite rows_fill_missing. apply length_map.
  - intros i r Hr. rewrite rows_fill_missing, nth_error_map, Hr.
    eexists. split; [reflexivity|]. split.
    + rewrite !fillna_row_length. reflexivity.
    + intros j v Hv. apply fillna_row_present, fillna_row_present, Hv.
Qed.


(** ** Missing values *)

Lemma In_enumerate {A : Type} (l : list A) (j : nat) (a : A) :
  In (j, a) (enumerate l) <-> nth_error l j = Some a.
Proof.
  split.
  - intros H. apply In_nth_error in H. destruct H as [k Hk].
    rewrite nth_error_enumerate in Hk.
    destruct (nth_error l k) as [b|] eqn:E; [|discriminate].
    injection Hk as <- <-. exact E.
  - intros H. apply (nth_error_In _ j).
    rewrite nth_error_enumerate, H. reflexivity.
Qed.

Lemma In_missing_data (df : DataFrame) (e : missing_row) :
  In e (missing_data df) <->
  exists j name dt,
    nth_error (columns df) j = Some (name, dt) /\
    e = {| Column := name;
           Missing_Count := missing_in j df;
           Missing_Percentage := percentage (missing_in j df) (len df) |} /\
    0 < missing_in j df.
Proof.
  unfold missing_data, missing_count. rewrite filter_In, map_map, in_map_iff.
  split.
  - intros [[[j [name dt]] [He Hin]] Hpos]. apply In_enumerate in Hin.
    subst e. cbn [Missing_Count snd fst] in Hpos. apply Nat.ltb_lt in Hpos.
    exists j, name, dt. repeat split; assumption.
  - intros [j [name [dt [Hcol [He Hpos]]]]]. split.
    + exists (j, (name, dt)). split; [symmetry; exact He|].
      apply In_enumerate, Hcol.
    + subst e. apply Nat.ltb_lt. exact Hpos.
Qed.

Lemma sum_bool_le (l : list bool) : sum_bool l <= length l.
Proof. apply filter_length_le. Qed.

Lemma sum_bool_all (l : list bool) : all l = true -> sum_bool l = length l.
Proof.
  unfold all, sum_bool. induction l as [|b l IH]; [reflexivity|].
  simpl. destruct b; [|discriminate]. intros H. simpl. f_equal. apply IH, H.
Qed.

Lemma missing_in_le (j : nat) (df : DataFrame) : missing_in j df <= len df.
Proof.
  unfold missing_in, len, column_cells.
  rewrite <- (length_map (cell_at j) (rows df)),
          <- (length_map isnull (map (cell_at j) (rows df))).
  apply sum_bool_le.
Qed.

Lemma all_isnull_column (j : nat) (df : DataFrame) :
  all (map isnull (column_cells j df)) = true <->
  forall r, In r (rows df) -> cell_at j r = None.
Proof.
  unfold all, column_cells. rewrite map_map, forallb_forall. split.
  - intros H r Hr.
    assert (Hnull : isnull (cell_at j r) = true)
      by (apply H, in_map_iff; exists r; split; [reflexivity | exact Hr]).
    destruct (cell_at j r); [discriminate Hnull | reflexivity].
  - intros H b Hb. apply in_map_iff in Hb. destruct Hb as [r [<- Hr]].
    rewrite (H r Hr). reflexivity.
Qed.

Lemma col_index_sound (name : string) (cols : list (string * dtype)) (j : nat) :
  col_index name cols = Some j ->
  exists dt, nth_error cols j = Some (name, dt).
Proof.
  revert j. induction cols as [|[n d] cols IH]; intros j H; [discriminate|].
  simpl in H. destruct (String.eqb name n) eqn:E.
  - injection H as <-. apply String.eqb_eq in E. subst. exists d. reflexivity.
  - destruct (col_index name cols) as [k|]; [|discriminate].
    injection H as <-. exact (IH k eq_refl).
Qed.

Lemma col_index_complete (name : string) (cols : list (string * dtype))
    (j : nat) (dt : dtype) :
  NoDup (map fst cols) ->
  nth_error cols j = Some (name, dt) ->
  col_index name cols = Some j.
Proof.
  revert j. induction cols as [|[n d] cols IH]; intros j Hnd H.
  - destruct j; discriminate.
  - simpl in Hnd. inversion Hnd as [|? ? Hnotin Hnd']; subst. simpl.
    destruct j as [|j]; simpl in H.
    + injection H as -> ->. rewrite String.eqb_refl. reflexivity.
    + destruct (String.eqb name n) eqn:E.
      * apply String.eqb_eq in E. subst. exfalso. apply Hnotin.
        apply nth_error_In in H. apply (in_map fst) in H. exact H.
      * rewrite (IH j Hnd' H). reflexivity.
Qed.

Lemma In_isnull_all_columns (df : DataFrame) (name : string) :
  unique_names df ->
  In name (isnull_all_columns df) <->
  exists j dt,
    nth_error (columns df) j = Some (name, dt) /\
    forall r, In r (rows df) -> cell_at j r = None.
Proof.
  intros Hnames. unfold isnull_all_columns, get_column. rewrite filter_In.
  split.
  - intros [_ H]. destruct (col_index name (columns df)) as [j|] eqn:E;
      [|discriminate].
    destruct (col_index_sound _ _ _ E) as [dt Hcol].
    exists j, dt. split; [exact Hcol|]. apply all_isnull_column, H.
  - intros [j [dt [Hcol Hall]]]. split.
    + apply nth_error_In in Hcol. apply (in_map fst) in Hcol. exact Hcol.
    + rewrite (col_index_complete _ _ _ _ Hnames Hcol). cbn [option_map].
      apply all_isnull_column, Hall.
Qed.

Lemma missing_data_nonempty (df : DataFrame) (j : nat) (name : string) (dt : dtype) :
  nth_error (columns df) j = Some (name, dt) ->
  0 < missing_in j df ->
  (length (missing_data df) =? 0) = false.
Proof.
  intros Hcol Hpos. apply Nat.eqb_neq. intros Hlen.
  apply length_zero_iff_nil in Hlen.
  assert (Hin : In {| Column := name;
                      Missing_Count := missing_in j df;
                      Missing_Percentage := percentage (missing_in j df) (len df) |}
                   (missing_data df))
    by (apply In_missing_data; exists j, name, dt; auto).
  rewrite Hlen in Hin. exact Hin.
Qed.

Lemma missing_data_rows (df : DataFrame) :
  (length (missing_data df) =? 0) = false -> 0 < len df.
Proof.
  intros H. apply Nat.eqb_neq in H.
  destruct (missing_data df) as [|e l] eqn:E; [contradiction|].
  assert (Hin : In e (missing_data df)) by (rewrite E; left; reflexivity).
  apply In_missing_data in Hin. destruct Hin as [j [_ [_ [_ [_ Hpos]]]]].
  pose proof (missing_in_le j df). lia.
Qed.

Lemma all_missing_count (j : nat) (df : DataFrame) :
  (forall r, In r (rows df) -> cell_at j r = None) ->
  missing_in j df = len df.
Proof.
  intros H. apply all_isnull_column in H. unfold missing_in.
  rewrite (sum_bool_all _ H). unfold column_cells, len.
  rewrite !length_map. reflexivity.
Qed.

Lemma col_index_found (name : string) (cols : list (string * dtype)) :
  In name (map fst cols) -> exists j, col_index name cols = Some j.
Proof.
  induction cols as [|[n d] cols IH]; intros Hin; [contradiction|].
  simpl. destruct (String.eqb name n) eqn:E; [exists 0; reflexivity|].
  destruct Hin as [Heq | Hin].
  - simpl in Heq. subst. rewrite String.eqb_refl in E. discriminate.
  - destruct (IH Hin) as [j ->]. exists (S j). reflexivity.
Qed.

(** The comprehension of lines 69-70 on its own lists every column of a
    table without rows; the test of line 63 is what keeps the script from
    evaluating it there. *)
Lemma isnull_all_columns_without_rows (df : DataFrame) :
  len df = 0 -> isnull_all_columns df = map fst (columns df).
Proof.
  intros Hzero. unfold len in Hzero. apply length_zero_iff_nil in Hzero.
  unfold isnull_all_columns, get_column, column_cells. rewrite Hzero.
  apply forallb_filter_id, forallb_forall. intros name Hin.
  destruct (col_index_found name (columns df) Hin) as [j ->]. reflexivity.
Qed.

(** C3. With unique column names, the script's [all_missing_cols] names a
    column exactly when every cell of that column is missing and the table
    has at least one row; on a table without rows the script does not list
    any column. *)
Theorem all_missing_cols_iff (df : DataFrame) (Hnames : unique_names df) :
  (forall name,
      (exists cols, all_missing_cols df = Some cols /\ In name cols) <->
      (exists j dt,
          nth_error (columns df) j = Some (name, dt) /\
          (forall r, In r (rows df) -> cell_at j r = None) /\
          0 < len df)) /\
  (len df = 0 -> all_missing_cols df = None).
Proof.
  unfold all_missing_cols. split.
  - intros name. split.
    + intros [cols [Hsome Hin]].
      destruct (length (missing_data df) =? 0) eqn:E; [discriminate|].
      injection Hsome as <-.
      apply (In_isnull_all_columns df name Hnames) in Hin.
      destruct Hin as [j [dt [Hcol Hall]]].
      exists j, dt. repeat split; [exact Hcol | exact Hall |].
      apply missing_data_rows, E.
    + intros [j [dt [Hcol [Hall Hrows]]]].
      rewrite (missing_data_nonempty df j name dt Hcol)
        by (rewrite (all_missing_count j df Hall); exact Hrows).
      eexists. split; [reflexivity|].
      apply (In_isnull_all_columns df name Hnames).
      exists j, dt. split; assumption.
  - intros Hzero.
    destruct (length (missing_data df) =? 0) eqn:E; [reflexivity|].
    apply missing_data_rows in E. lia.
Qed.

Lemma scenario_empty_column_names : unique_names scenario_empty_column.
Proof.
  unfold unique_names. cbn.
  repeat constructor; cbn; intuition discriminate.
Qed.

Lemma all_missing_cols_iff_witness :
  exists cols,
    all_missing_cols scenario_empty_column = Some cols /\ In "A" cols.
Proof.
  apply (proj1 (all_missing_cols_iff scenario_empty_column
                  scenario_empty_column_names)).
  exists 0, Numeric. split; [reflexivity|]. split; [|cbn; lia].
  intros r Hr. cbn in Hr.
  repeat (destruct Hr as [<- | Hr]; [reflexivity|]). contradiction.
Defined.

(** ** The missing-value report *)


(** [np_rint] on halves, quarters and a product that falls short of a
    half. *)
Lemma np_rint_examples :
  np_rint (f64_div (f64_of_Z 5) (f64_of_Z 2)) = f64_of_Z 2 /\
  np_rint (f64_div (f64_of_Z 7) (f64_of_Z 2)) = f64_of_Z 4 /\
  np_rint (f64_div (f64_of_Z 3) (f64_of_Z 4)) = f64_of_Z 1 /\
  np_rint (f64_div (f64_of_Z 1) (f64_of_Z 4)) = f64_of_Z 0 /\
  np_rint (f64_of_Z 12) = f64_of_Z 12 /\
  np_rint
    (f64_mul (f64_mul (f64_div (f64_of_Z 23) (f64_of_Z 160)) (f64_of_Z 100))
             (f64_of_Z 100)) = f64_of_Z 1437.
Proof. repeat split; vm_compute; reflexivity. Qed.

(** 23 missing cells of 160: the exact percentage 14.375 is a tie between
    14.37 and 14.38; the float64 product falls just below it and the report
    shows 14.37. *)
Lemma percentage_23_of_160 :
  percentage 23 160 = f64_div (f64_of_Z 1437) (f64_of_Z 100).
Proof. vm_compute. reflexivity. Qed.


(** ** Filling a numeric column that has no value *)

Lemma numbers_all_missing (cs : list cell) :
  (forall c, In c cs -> c = None) -> numbers cs = [].
Proof.
  induction cs as [|c cs IH]; intros H; [reflexivity|].
  rewrite (H c (or_introl eq_refl)). simpl. apply IH.
  intros c' Hc'. apply H. right. exact Hc'.
Qed.

Lemma mean_all_missing (j : nat) (df : DataFrame) :
  (forall r, In r (rows df) -> cell_at j r = None) ->
  mean (column_cells j df) = None.
Proof.
  intros Hall. unfold mean. rewrite numbers_all_missing; [reflexivity|].
  intros c Hc. apply in_map_iff in Hc. destruct Hc as [r [<- Hr]].
  apply Hall, Hr.
Qed.

Lemma fill_missing_stays_missing (df : DataFrame) (j : nat) (name : string) :
  nth_error (columns df) j = Some (name, Numeric) ->
  (forall r, In r (rows df) -> cell_at j r = None) ->
  forall r, In r (rows (fill_missing df)) -> cell_at j r = None.
Proof.
  intros Hcol Hall r Hr. rewrite rows_fill_missing in Hr.
  apply in_map_iff in Hr. destruct Hr as [r0 [<- Hr0]].
  apply fillna_row_stays_missing.
  - apply fillna_row_stays_missing; [apply Hall, Hr0|].
    rewrite nth_numeric_means, Hcol, (mean_all_missing j df Hall).
    reflexivity.
  - rewrite nth_text_fills, Hcol. reflexivity.
Qed.

Lemma column_all_missing (j : nat) (df : DataFrame) :
  (forall r, In r (rows df) -> cell_at j r = None) ->
  column_cells j df = map (fun _ => None) (rows df).
Proof.
  intros Hall. unfold column_cells. apply map_ext_in. exact Hall.
Qed.

Lemma script_fill_click (data df : DataFrame) (j : nat) (name : string) (dt : dtype) :
  unique_names df ->
  0 < len df ->
  nth_error (columns df) j = Some (name, dt) ->
  (forall r, In r (rows df) -> cell_at j r = None) ->
  In name (isnull_all_columns df) /\
  script data (Some FillMissingValues) (Some df) =
    {| session := Some (fill_missing df);
       page := [MissingTable (missing_data df);
                AllMissingWarning (isnull_all_columns df);
                RemoveEmptyTip;
                FilledAllMissing];
       outcome := Rerun |}.
Proof.
  intros Hnames Hrows Hcol Hall.
  assert (Hin : In name (isnull_all_columns df))
    by (apply (In_isnull_all_columns df name Hnames); exists j, dt; auto).
  split; [exact Hin|].
  unfold script, initialize, missing_values_section, empty_columns_block.
  rewrite (missing_data_nonempty df j name dt Hcol)
    by (rewrite (all_missing_count j df Hall); exact Hrows).
  cbn [and_then display held shown ended].
  destruct (isnull_all_columns df) as [|c cols]; [contradiction|].
  reflexivity.
Qed.

(** C2, as the script has it. A numeric column whose cells are all missing
    is left as it is by [fill_missing]: every cell of it is still missing,
    none is set to 0, and the fill action reports success only, with no
    warning and no error. The one signal is the page's warning about columns
    that are entirely missing: when the table has a row and its column names
    are unique, the run in which the fill button is clicked has displayed
    that warning, naming the column, before the fill. *)
Theorem fill_leaves_empty_numeric_column (df : DataFrame) (j : nat) (name : string)
    (Hcol : nth_error (columns df) j = Some (name, Numeric))
    (Hall : forall r, In r (rows df) -> cell_at j r = None) :
  (forall r, In r (rows (held (fill_missing_values df))) -> cell_at j r = None) /\
  column_cells j (held (fill_missing_values df)) = column_cells j df /\
  shown (fill_missing_values df) = [FilledAllMissing] /\
  (forall e, In e (shown (fill_missing_values df)) -> signals e = false) /\
  (unique_names df -> 0 < len df ->
   forall data,
   exists cols,
     In name cols /\
     script data (Some FillMissingValues) (Some df) =
       {| session := Some (fill_missing df);
          page := [MissingTable (missing_data df);
                   AllMissingWarning cols;
                   RemoveEmptyTip;
                   FilledAllMissing];
          outcome := Rerun |}).
Proof.
  pose proof (fill_missing_stays_missing df j name Hcol Hall) as Hstay.
  split; [exact Hstay|]. split.
  - rewrite (column_all_missing j df Hall).
    rewrite (column_all_missing j (held (fill_missing_values df)) Hstay).
    cbn [fill_missing_values held]. rewrite rows_fill_missing, map_map.
    reflexivity.
  - split; [reflexivity|]. split.
    + intros e [<- | []]. reflexivity.
    + intros Hnames Hrows data. exists (isnull_all_columns df).
      exact (script_fill_click data df j name Numeric Hnames Hrows Hcol Hall).
Qed.

Lemma empty_numeric_column_all_missing (r : row) :
  In r (rows empty_numeric_column) -> cell_at 1 r = None.
Proof. intros [<- | []]. reflexivity. Qed.

Lemma fill_leaves_empty_numeric_column_witness :
  column_cells 1 (held (fill_missing_values empty_numeric_column)) = [None] /\
  shown (fill_missing_values empty_numeric_column) = [FilledAllMissing].
Proof.
  pose proof (fill_leaves_empty_numeric_column empty_numeric_column 1 "B"
                eq_refl empty_numeric_column_all_missing) as H.
  split; [exact (proj1 (proj2 H)) | exact (proj1 (proj2 (proj2 H)))].
Defined.

(** C2, as the specification states it, fails on the table with the one
    row A = 1, B missing, B numeric: column B is not filled with 0, and the
    fill action signals nothing. *)
Lemma fill_empty_numeric_column_unsignalled :
  nth_error (columns empty_numeric_column) 1 = Some ("B", Numeric) /\
  (forall r, In r (rows empty_numeric_column) -> cell_at 1 r = None) /\
  ~ zero_filled_or_signalled empty_numeric_column 1.
Proof.
  split; [reflexivity|]. split; [exact empty_numeric_column_all_missing|].
  intros [Hzero | [_ [e [He Hsig]]]].
  - specialize (Hzero [num 1; None] (or_introl eq_refl)). discriminate Hzero.
  - destruct He as [<- | []]. discriminate Hsig.
Qed.

(** ** Deleting rows with missing values *)

Lemma dropna_all_missing (df : DataFrame) :
  (forall r, In r (rows df) -> exists j, nth_error r j = Some None) ->
  dropna df = {| columns := columns df; rows := [] |}.
Proof.
  intros Hall. unfold dropna. f_equal.
  induction (rows df) as [|r rs IH]; [reflexivity|]. simpl.
  assert (Hr : forallb notnull r = false).
  { destruct (Hall r (or_introl eq_refl)) as [j Hj].
    destruct (forallb notnull r) eqn:E; [|reflexivity].
    rewrite forallb_forall in E. apply nth_error_In in Hj.
    discriminate (E None Hj). }
  rewrite Hr. apply IH. intros r' Hr'. apply Hall. right. exact Hr'.
Qed.

(** The handler stores the empty table and then reports the error. *)
Lemma delete_rows_all_missing (df : DataFrame) :
  (forall r, In r (rows df) -> exists j, nth_error r j = Some None) ->
  delete_rows_with_missing df =
    {| held := {| columns := columns df; rows := [] |};
       shown := [WouldDeleteAllRows];
       ended := Stop |}.
Proof.
  intros Hall. unfold delete_rows_with_missing.
  rewrite (dropna_all_missing df Hall). reflexivity.
Qed.

(** On a table without rows the missing-values section shows no button:
    whatever was clicked, the run keeps the table and reports no error. *)
Lemma script_without_rows (data df : DataFrame) (click : option button) :
  len df = 0 ->
  script data click (Some df) =
    {| session := Some df;
       page := [NoMissingValues; NoDuplicates; Download df];
       outcome := Continue |}.
Proof.
  intros Hzero. unfold script, initialize, missing_values_section.
  assert (Hmd : missing_data df = []).
  { destruct (missing_data df) as [|e l] eqn:E; [reflexivity|].
    assert (Hne : (length (missing_data df) =? 0) = false)
      by (rewrite E; reflexivity).
    apply missing_data_rows in Hne. lia. }
  assert (Hdc : duplicate_count df = 0).
  { unfold len in Hzero. apply length_zero_iff_nil in Hzero.
    unfold duplicate_count, duplicated. rewrite Hzero.
    destruct (empty df); reflexivity. }
  rewrite Hmd. cbn [length Nat.eqb and_then display held shown ended].
  unfold duplicates_section. rewrite Hdc. reflexivity.
Qed.

(** C1, on the table with the rows (1, missing) and (missing, "x"). A
    click on the delete button displays the error and stops the run, but the
    session now holds the table without rows, not the table it held before;
    the next run finds no missing value in it and offers no fill button. *)
Theorem delete_rows_commits_empty_table :
  let emptied := {| columns := columns incomplete_rows; rows := [] |} in
  let r := script incomplete_rows (Some DeleteRowsWithMissing)
                  (Some incomplete_rows) in
  (forall r0, In r0 (rows incomplete_rows) ->
              exists j, nth_error r0 j = Some None) /\
  In WouldDeleteAllRows (page r) /\
  outcome r = Stop /\
  session r = Some emptied /\
  session r <> Some incomplete_rows /\
  page (script incomplete_rows None (session r)) =
    [NoMissingValues; NoDuplicates; Download emptied].
Proof.
  cbv zeta. split; [|repeat split].
  - intros r0 [<- | [<- | []]]; [exists 1 | exists 0]; reflexivity.
  - vm_compute. right. left. reflexivity.
  - discriminate.
Qed.

(** * Further properties of the script *)

(** ** Removing duplicate rows *)

Lemma duplicated_none (seen rs : list row) :
  sum_bool (duplicated_from seen rs) = 0 <->
  NoDup rs /\ forall x, In x rs -> ~ In x seen.
Proof.
  unfold sum_bool. revert seen.
  induction rs as [|r rest IH]; intros seen; cbn [duplicated_from filter].
  - split; [intros _; split; [constructor | intros x []] | reflexivity].
  - destruct (mem r seen) eqn:E.
    + split; [discriminate|]. intros [_ Hfresh]. apply mem_In in E.
      destruct (Hfresh r (or_introl eq_refl) E).
    + apply mem_not_In in E. rewrite IH. split.
      * intros [Hnd Hfresh]. split.
        -- constructor; [|exact Hnd].
           intros Hin. apply (Hfresh r Hin). left. reflexivity.
        -- intros x [<- | Hx]; [exact E|].
           intros Hs. apply (Hfresh x Hx). right. exact Hs.
      * intros [Hnd Hfresh].
        inversion Hnd as [|? ? Hnotin Hnd']; subst. split; [exact Hnd'|].
        intros x Hx [<- | Hs]; [contradiction|].
        apply (Hfresh x (or_intror Hx) Hs).
Qed.

Lemma in_duplicate_group_nil (rs : list row) :
  in_duplicate_group rs = [] <-> NoDup rs.
Proof.
  unfold in_duplicate_group. rewrite (NoDup_count_occ row_eq_dec). split.
  - intros Hnil x.
    destruct (le_lt_dec (count_occ row_eq_dec rs x) 1) as [Hle | Hlt];
      [exact Hle|].
    assert (Hin : In x (filter (fun r => 2 <=? count_occ row_eq_dec rs r) rs)).
    { apply filter_In. split.
      - apply (count_occ_In row_eq_dec). lia.
      - apply Nat.leb_le. lia. }
    rewrite Hnil in Hin. contradiction.
  - intros Hocc.
    destruct (filter (fun r => 2 <=? count_occ row_eq_dec rs r) rs)
      as [|x l] eqn:E; [reflexivity|].
    assert (Hin : In x (filter (fun r => 2 <=? count_occ row_eq_dec rs r) rs))
      by (rewrite E; left; reflexivity).
    apply filter_In in Hin. destruct Hin as [_ Hx].
    apply Nat.leb_le in Hx. specialize (Hocc x). lia.
Qed.

Lemma empty_cases (df : DataFrame) :
  empty df = true <-> rows df = [] \/ columns df = [].
Proof.
  unfold empty, len. rewrite orb_true_iff, !Nat.eqb_eq, !length_zero_iff_nil.
  tauto.
Qed.

Lemma duplicate_count_zero (df : DataFrame) :
  duplicate_count df = 0 <-> columns df = [] \/ NoDup (rows df).
Proof.
  unfold duplicate_count, duplicated. destruct (empty df) eqn:E.
  - split; [|reflexivity]. intros _. apply empty_cases in E.
    destruct E as [E | E]; [right; rewrite E; constructor | left; exact E].
  - rewrite duplicated_none. split.
    + intros [Hnd _]. right. exact Hnd.
    + intros [Hcols | Hnd].
      * assert (Ht : empty df = true) by (apply empty_cases; right; exact Hcols).
        congruence.
      * split; [exact Hnd | intros x _ []].
Qed.

(** X1. The page reports no duplicates exactly when the table has no
    columns or no two of its rows are equal, and that is exactly when the
    rows marked by [duplicated(keep=False)] are none: whenever the warning
    of line 122 is displayed, the preview of line 127 has rows to show. *)
Theorem no_duplicates_iff (df : DataFrame) :
  (duplicate_count df = 0 <-> columns df = [] \/ NoDup (rows df)) /\
  (duplicate_count df = 0 <-> rows (duplicates df) = []).
Proof.
  split; [apply duplicate_count_zero|].
  rewrite duplicate_count_zero.
  unfold duplicates, duplicated_keep_False, select_rows. cbn [rows].
  destruct (empty df) eqn:E.
  - split; [intros _; destruct (rows df); reflexivity|].
    intros _. apply empty_cases in E.
    destruct E as [E | E]; [right; rewrite E; constructor | left; exact E].
  - rewrite (select_duplicated_all (rows df) [] (rows df) [])
      by (reflexivity || tauto).
    change (filter (fun r => 2 <=? count_occ row_eq_dec (rows df) r) (rows df))
      with (in_duplicate_group (rows df)).
    rewrite in_duplicate_group_nil. split; [|tauto].
    intros [Hcols | Hnd]; [|exact Hnd].
    assert (Ht : empty df = true) by (apply empty_cases; right; exact Hcols).
    congruence.
Qed.

(** X2. The remove-duplicates button is displayed when the duplicate
    count is not zero. After a click on it the held table has no duplicate
    left, so the next run reports none; its number of rows, the number the
    success message shows, is the number of distinct rows, and the rows
    removed are as many as the duplicate count announced. *)
Theorem remove_duplicate_rows_effect (df : DataFrame)
    (Hshown : duplicate_count df <> 0) :
  let s := remove_duplicate_rows df in
  shown s = [RemovedDuplicates (distinct_rows (rows df))] /\
  ended s = Rerun /\
  len (held s) + duplicate_count df = len df /\
  duplicate_count (held s) = 0 /\
  forall click, duplicates_section click (held s) = display [NoDuplicates] (held s).
Proof.
  cbv zeta. cbn [remove_duplicate_rows held shown ended].
  assert (Hlen : len (drop_duplicates df) = distinct_rows (rows df))
    by (unfold len; rewrite rows_drop_duplicates; apply length_kept_distinct).
  assert (Hnone : duplicate_count (drop_duplicates df) = 0).
  { apply duplicate_count_zero. right.
    rewrite rows_drop_duplicates. apply kept_from_NoDup. }
  assert (Hcount : duplicate_count df = sum_bool (duplicated_from [] (rows df))).
  { unfold duplicate_count, duplicated in *.
    destruct (empty df); [contradiction Hshown; reflexivity | reflexivity]. }
  split; [rewrite Hlen; reflexivity|]. split; [reflexivity|]. split.
  - pose proof (duplicated_plus_kept [] (rows df)) as Hsum.
    rewrite Hcount. unfold len. rewrite rows_drop_duplicates. lia.
  - split; [exact Hnone|]. intros click.
    unfold duplicates_section. rewrite Hnone. reflexivity.
Qed.

Lemma scenario_duplicates_shown : duplicate_count scenario_duplicates <> 0.
Proof. vm_compute. discriminate. Qed.

Lemma remove_duplicate_rows_effect_witness :
  len (held (remove_duplicate_rows scenario_duplicates))
    + duplicate_count scenario_duplicates = len scenario_duplicates /\
  duplicate_count (held (remove_duplicate_rows scenario_duplicates)) = 0.
Proof.
  pose proof (remove_duplicate_rows_effect scenario_duplicates
                scenario_duplicates_shown) as H.
  split; [exact (proj1 (proj2 (proj2 H)))
         | exact (proj1 (proj2 (proj2 (proj2 H))))].
Defined.

Lemma mem_filter (p : row -> bool) (r : row) (l : list row) :
  p r = true -> mem r (filter p l) = mem r l.
Proof.
  intros Hp. destruct (mem r l) eqn:E.
  - apply mem_In, filter_In. split; [apply mem_In, E | exact Hp].
  - apply mem_not_In. intros Hin. apply filter_In in Hin.
    apply mem_not_In in E. tauto.
Qed.

Lemma kept_from_filter (p : row -> bool) (seen rs : list row) :
  kept_from (filter p seen) (filter p rs) = filter p (kept_from seen rs).
Proof.
  revert seen. induction rs as [|r rest IH]; intros seen; [reflexivity|].
  cbn [filter kept_from]. specialize (IH (r :: seen)). cbn [filter] in IH.
  destruct (p r) eqn:Hp.
  - cbn [kept_from]. rewrite (mem_filter p r seen Hp), IH.
    destruct (mem r seen); [reflexivity|]. cbn [filter]. rewrite Hp.
    reflexivity.
  - rewrite IH. destruct (mem r seen); [reflexivity|].
    cbn [filter]. rewrite Hp. reflexivity.
Qed.

(** X3. Deleting the rows with missing values and removing duplicate rows
    commute: the two buttons give the same table in either order. *)
Theorem dropna_drop_duplicates_commute (df : DataFrame) :
  drop_duplicates (dropna df) = dropna (drop_duplicates df).
Proof.
  unfold dropna at 2. rewrite rows_drop_duplicates.
  unfold drop_duplicates, select_rows, duplicated.
  rewrite select_not_duplicated. cbn [dropna columns rows]. f_equal.
  apply (kept_from_filter (forallb notnull) [] (rows df)).
Qed.

(** ** Tables without missing cells *)

Lemma sum_bool_zero (l : list bool) :
  sum_bool l = 0 <-> forall b, In b l -> b = false.
Proof.
  unfold sum_bool. induction l as [|b l IH]; cbn [filter].
  - split; [intros _ b [] | reflexivity].
  - destruct b; cbn [length].
    + split; [discriminate|]. intros H.
      discriminate (H true (or_introl eq_refl)).
    + rewrite IH. split.
      * intros H b [<- | Hb]; [reflexivity | apply H, Hb].
      * intros H b Hb. apply H. right. exact Hb.
Qed.

Lemma missing_in_zero (j : nat) (df : DataFrame) :
  missing_in j df = 0 <->
  forall r, In r (rows df) -> isnull (cell_at j r) = false.
Proof.
  unfold missing_in, column_cells. rewrite sum_bool_zero, map_map. split.
  - intros H r Hr. apply H, in_map_iff. exists r. split; [reflexivity | exact Hr].
  - intros H b Hb. apply in_map_iff in Hb. destruct Hb as [r [<- Hr]].
    apply H, Hr.
Qed.

Lemma missing_data_nil (df : DataFrame) :
  missing_data df = [] <->
  forall j, j < length (columns df) -> missing_in j df = 0.
Proof.
  split.
  - intros Hnil j Hj.
    destruct (nth_error (columns df) j) as [[name dt]|] eqn:Hcol;
      [|apply nth_error_None in Hcol; lia].
    destruct (missing_in j df) as [|n] eqn:Hn; [reflexivity|].
    assert (Hin : In {| Column := name;
                        Missing_Count := missing_in j df;
                        Missing_Percentage := percentage (missing_in j df) (len df) |}
                     (missing_data df))
      by (apply In_missing_data; exists j, name, dt; repeat split; [exact Hcol | lia]).
    rewrite Hnil in Hin. contradiction.
  - intros Hzero. destruct (missing_data df) as [|e l] eqn:E; [reflexivity|].
    assert (Hin : In e (missing_data df)) by (rewrite E; left; reflexivity).
    apply In_missing_data in Hin.
    destruct Hin as [j [name [dt [Hcol [_ Hpos]]]]].
    assert (Hj : j < length (columns df))
      by (apply nth_error_Some; rewrite Hcol; discriminate).
    specialize (Hzero j Hj). lia.
Qed.

Lemma row_complete (r : row) :
  forallb notnull r = true <->
  forall j, j < length r -> isnull (cell_at j r) = false.
Proof.
  rewrite forallb_forall. unfold cell_at, notnull. split.
  - intros H j Hj. specialize (H (nth j r None) (nth_In r None Hj)).
    apply negb_true_iff in H. exact H.
  - intros H c Hc. destruct (In_nth r c None Hc) as [j [Hj <-]].
    rewrite (H j Hj). reflexivity.
Qed.

Lemma complete_missing_data (df : DataFrame) :
  rectangular df -> (complete df <-> missing_data df = []).
Proof.
  intros Hrect. rewrite missing_data_nil. split.
  - intros Hc j Hj. apply missing_in_zero. intros r Hr.
    apply (proj1 (row_complete r) (Hc r Hr)). rewrite (Hrect r Hr). exact Hj.
  - intros Hzero r Hr. apply row_complete. intros j Hj.
    rewrite (Hrect r Hr) in Hj.
    exact (proj1 (missing_in_zero j df) (Hzero j Hj) r Hr).
Qed.

Lemma complete_dropna (df : DataFrame) : complete df <-> dropna df = df.
Proof.
  unfold complete, dropna. destruct df as [cols rs]. cbn [rows columns]. split.
  - intros H. f_equal. apply forallb_filter_id, forallb_forall, H.
  - intros H r Hr. injection H as H. rewrite <- H in Hr.
    apply filter_In in Hr. tauto.
Qed.

(** X4. On a table whose rows have one cell per column, the page reports
    that there are no missing values exactly when no cell is missing, and
    that is exactly when [dropna] would return the table as it is. *)
Theorem no_missing_values_iff (df : DataFrame) (Hrect : rectangular df) :
  (missing_data df = [] <-> complete df) /\
  (missing_data df = [] <-> dropna df = df).
Proof.
  pose proof (complete_missing_data df Hrect) as H.
  split; [symmetry; exact H|]. rewrite <- complete_dropna. symmetry. exact H.
Qed.

Lemma scenario_duplicates_rectangular : rectangular scenario_duplicates.
Proof.
  intros r Hr. cbn in Hr.
  repeat (destruct Hr as [<- | Hr]; [reflexivity|]). contradiction.
Qed.

Lemma no_missing_values_iff_witness :
  missing_data scenario_duplicates = [] <->
  dropna scenario_duplicates = scenario_duplicates.
Proof.
  exact (proj2 (no_missing_values_iff scenario_duplicates
                  scenario_duplicates_rectangular)).
Defined.

(** ** The delete-rows button *)

Lemma filter_nil_iff {A : Type} (f : A -> bool) (l : list A) :
  filter f l = [] <-> forall x, In x l -> f x = false.
Proof.
  induction l as [|a l IH]; cbn [filter].
  - split; [intros _ x [] | reflexivity].
  - destruct (f a) eqn:E.
    + split; [discriminate|]. intros H.
      rewrite (H a (or_introl eq_refl)) in E. discriminate.
    + rewrite IH. split.
      * intros H x [<- | Hx]; [exact E | apply H, Hx].
      * intros H x Hx. apply H. right. exact Hx.
Qed.

Lemma filter_negb_length {A : Type} (f : A -> bool) (l : list A) :
  length l - length (filter f l) = length (filter (fun x => negb (f x)) l).
Proof.
  induction l as [|a l IH]; [reflexivity|]. cbn [filter].
  pose proof (filter_length_le f l) as Hle.
  destruct (f a); cbn [negb length]; lia.
Qed.

Lemma dropna_complete (df : DataFrame) : complete (dropna df).
Proof.
  intros r Hr. cbn [dropna rows] in Hr. apply filter_In in Hr. tauto.
Qed.

Lemma dropna_rectangular (df : DataFrame) :
  rectangular df -> rectangular (dropna df).
Proof.
  intros Hrect r Hr. cbn [dropna rows columns] in *.
  apply filter_In in Hr. apply Hrect. tauto.
Qed.

(** X5. The delete handler displays the error of line 95 and stops exactly
    when no row of the table is free of missing cells, and the table it has
    stored by then has no rows. Otherwise it reruns the script on a table
    without missing cells, and the number in its success message is the
    number of rows that had a missing cell. *)
Theorem delete_rows_rejected_iff (df : DataFrame) :
  let s := delete_rows_with_missing df in
  (ended s = Stop <-> forall r, In r (rows df) -> forallb notnull r = false) /\
  (ended s = Stop -> rows (held s) = [] /\ shown s = [WouldDeleteAllRows]) /\
  (ended s <> Stop ->
   ended s = Rerun /\
   complete (held s) /\
   shown s = [DeletedRows
                (length (filter (fun r => negb (forallb notnull r)) (rows df)))]).
Proof.
  cbv zeta. unfold delete_rows_with_missing. cbv zeta.
  pose proof (filter_negb_length (forallb notnull) (rows df)) as Hcount.
  pose proof (filter_nil_iff (forallb notnull) (rows df)) as Hnil.
  change (filter (forallb notnull) (rows df)) with (rows (dropna df))
    in Hcount, Hnil.
  change (length (rows df) - length (rows (dropna df)))
    with (len df - len (dropna df)) in Hcount.
  rewrite <- Hnil, Hcount.
  destruct (len (dropna df)) as [|n] eqn:E; cbn [Nat.eqb held shown ended].
  - unfold len in E. apply length_zero_iff_nil in E.
    split; [tauto|]. split; [intros _; split; [exact E | reflexivity]|].
    intros H. contradiction.
  - split; [split; [discriminate|]|].
    + intros H. unfold len in E. rewrite H in E. discriminate.
    + split; [discriminate|]. intros _. split; [reflexivity|].
      split; [apply dropna_complete | reflexivity].
Qed.

Lemma complete_row_no_empty_column (df : DataFrame) (r0 : row) :
  rectangular df -> In r0 (rows df) -> forallb notnull r0 = true ->
  isnull_all_columns df = [].
Proof.
  intros Hrect Hr0 Hc. unfold isnull_all_columns, get_column.
  apply filter_nil_iff. intros name Hin.
  destruct (col_index_found name (columns df) Hin) as [j Hj]. rewrite Hj.
  cbn [option_map]. destruct (col_index_sound _ _ _ Hj) as [dt Hcol].
  destruct (all (map isnull (column_cells j df))) eqn:E; [|reflexivity].
  pose proof (proj1 (all_isnull_column j df) E) as Hall.
  assert (Hlt : j < length r0).
  { rewrite (Hrect r0 Hr0). apply nth_error_Some. rewrite Hcol. discriminate. }
  pose proof (proj1 (row_complete r0) Hc j Hlt) as Hnn.
  rewrite (Hall r0 Hr0) in Hnn. discriminate.
Qed.

(** X6. On a table whose rows have one cell per column, with a missing
    cell somewhere and at least one row without any, a click on the delete
    button is carried out: no column is reported as entirely missing, the
    session receives the rows without missing cells, of which there is at
    least one, the message counts the rows removed, and the script reruns on
    a table for which it will find no missing value. *)
Theorem delete_rows_accepted (df : DataFrame) (r0 : row)
    (Hrect : rectangular df)
    (Hmissing : missing_data df <> [])
    (Hr0 : In r0 (rows df))
    (Hcomplete : forallb notnull r0 = true) :
  (forall data,
      script data (Some DeleteRowsWithMissing) (Some df) =
        {| session := Some (dropna df);
           page := [MissingTable (missing_data df);
                    DeletedRows (len df - len (dropna df))];
           outcome := Rerun |}) /\
  In r0 (rows (dropna df)) /\
  len (dropna df) < len df /\
  missing_data (dropna df) = [].
Proof.
  assert (Hkept : In r0 (rows (dropna df)))
    by (apply filter_In; split; assumption).
  split; [|split; [exact Hkept|split]].
  - intros data. unfold script, initialize, missing_values_section.
    destruct (missing_data df) as [|e l] eqn:E; [contradiction|].
    cbn [length Nat.eqb and_then display held shown ended].
    unfold empty_columns_block.
    rewrite (complete_row_no_empty_column df r0 Hrect Hr0 Hcomplete).
    cbn [and_then display held shown ended on_click pressed button_eqb].
    unfold delete_rows_with_missing.
    destruct (len (dropna df)) as [|n] eqn:Hn.
    + unfold len in Hn. apply length_zero_iff_nil in Hn.
      rewrite Hn in Hkept. contradiction.
    + reflexivity.
  - destruct (Nat.eq_dec (len (dropna df)) (len df)) as [Heq | Hne].
    + exfalso. apply Hmissing.
      apply (proj1 (complete_missing_data df Hrect)).
      apply (proj2 (complete_dropna df)).
      unfold dropna, len in *. destruct df as [cols rs].
      cbn [rows columns] in *. f_equal.
      pose proof (filter_length_forallb (forallb notnull) rs Heq) as Hall.
      apply forallb_filter_id, Hall.
    + pose proof (filter_length_le (forallb notnull) (rows df)) as Hle.
      change (len (dropna df) <= len df) in Hle. lia.
  - apply (proj1 (complete_missing_data (dropna df)
                    (dropna_rectangular df Hrect))).
    apply dropna_complete.
Qed.

Lemma scenario_fill_rectangular : rectangular scenario_fill.
Proof.
  intros r Hr. cbn in Hr.
  repeat (destruct Hr as [<- | Hr]; [reflexivity|]). contradiction.
Qed.

Lemma delete_rows_accepted_witness :
  In [num 1; txt "x"] (rows (dropna scenario_fill)) /\
  len (dropna scenario_fill) < len scenario_fill /\
  missing_data (dropna scenario_fill) = [].
Proof.
  refine (proj2 (delete_rows_accepted scenario_fill [num 1; txt "x"]
                   scenario_fill_rectangular _ _ _)).
  - vm_compute. discriminate.
  - left. reflexivity.
  - reflexivity.
Defined.

(** ** The fill button *)

Lemma fillna_row_fixed (vals : list cell) (r : row) :
  (forall j, nth_error r j = Some None -> nth j vals None = None) ->
  fillna_row vals r = r.
Proof.
  revert vals. induction r as [|c r IH]; intros vals H;
    [destruct vals; reflexivity|].
  destruct vals as [|v vals]; [reflexivity|]. cbn [fillna_row].
  rewrite (IH vals) by (intros j Hj; exact (H (S j) Hj)).
  destruct c as [x|]; [reflexivity|].
  pose proof (H 0 eq_refl) as Hv. cbn [nth] in Hv. rewrite Hv. reflexivity.
Qed.

Lemma fillna_row_missing_inv (vals : list cell) (r : row) (j : nat) :
  nth_error (fillna_row vals r) j = Some None ->
  nth_error r j = Some None /\ nth j vals None = None.
Proof.
  revert vals j. induction r as [|c r IH]; intros vals j H.
  - destruct vals, j; discriminate H.
  - destruct vals as [|v vals].
    + cbn [fillna_row] in H. split; [exact H | destruct j; reflexivity].
    + destruct j as [|j]; cbn [fillna_row nth_error nth] in *.
      * destruct c as [x|]; [discriminate H|].
        injection H as ->. split; reflexivity.
      * apply IH, H.
Qed.

Lemma fillna_row_unfilled (vals : list cell) (r : row) (j : nat) :
  nth j vals None = None -> cell_at j (fillna_row vals r) = cell_at j r.
Proof.
  unfold cell_at. revert vals j. induction r as [|c r IH]; intros vals j H.
  - destruct vals; reflexivity.
  - destruct vals as [|v vals]; [reflexivity|].
    destruct j as [|j]; cbn [fillna_row nth] in *.
    + subst v. destruct c; reflexivity.
    + apply IH, H.
Qed.








Lemma column_unfilled (df : DataFrame) (j : nat) :
  nth j (numeric_means df) None = None ->
  nth j (text_fills df) None = None ->
  column_cells j (fill_missing df) = column_cells j df.
Proof.
  intros Hn Ht. unfold column_cells. rewrite rows_fill_missing, map_map.
  apply map_ext. intros r.
  rewrite (fillna_row_unfilled _ _ _ Ht). apply fillna_row_unfilled, Hn.
Qed.

(** X8. Filling is idempotent: a second click on the fill button, right
    after the first, changes nothing, whatever the table. A numeric column
    without a number stays as missing as it was; every other missing cell
    was filled the first time. *)
Theorem fill_missing_idempotent (df : DataFrame) :
  fill_missing (fill_missing df) = fill_missing df.
Proof.
  destruct (fill_missing df) as [cols rs] eqn:E.
  assert (Hcols : columns (fill_missing df) = cols) by (rewrite E; reflexivity).
  assert (Hrows : rows (fill_missing df) = rs) by (rewrite E; reflexivity).
  rewrite <- E at 1.
  assert (Hgoal : rows (fill_missing (fill_missing df)) = rows (fill_missing df)).
  { rewrite (rows_fill_missing (fill_missing df)).
    rewrite <- (map_id (rows (fill_missing df))) at 2.
    apply map_ext_in. intros r' Hr'.
    rewrite rows_fill_missing in Hr'. apply in_map_iff in Hr'.
    destruct Hr' as [r [<- Hr]].
    assert (Hnone : forall j,
               nth_error (fillna_row (text_fills df)
                            (fillna_row (numeric_means df) r)) j = Some None ->
               nth j (numeric_means (fill_missing df)) None = None /\
               nth j (text_fills (fill_missing df)) None = None).
    { intros j Hj. apply fillna_row_missing_inv in Hj. destruct Hj as [Hj Ht].
      apply fillna_row_missing_inv in Hj. destruct Hj as [_ Hn].
      split; [|exact Ht].
      rewrite nth_numeric_means. change (columns (fill_missing df)) with (columns df).
      rewrite (column_unfilled df j Hn Ht).
      rewrite nth_numeric_means in Hn. exact Hn. }
    rewrite (fillna_row_fixed (numeric_means (fill_missing df)))
      by (intros j Hj; apply Hnone, Hj).
    apply fillna_row_fixed. intros j Hj. apply Hnone, Hj. }
  rewrite E in Hgoal at 2. cbn [rows] in Hgoal.
  destruct (fill_missing (fill_missing df)) as [cols' rs'] eqn:E'.
  assert (Hcols' : columns (fill_missing (fill_missing df)) = cols')
    by (rewrite E'; reflexivity).
  cbn [rows] in Hgoal. change (columns (fill_missing (fill_missing df)))
    with (columns df) in Hcols'.
  change (columns (fill_missing df)) with (columns df) in Hcols.
  congruence.
Qed.

(** ** The remove-empty-columns button *)

Lemma select_filter {A : Type} (p : A -> bool) (xs : list A) :
  select (map p xs) xs = filter p xs.
Proof.
  induction xs as [|x xs IH]; [reflexivity|]. cbn [map select filter].
  rewrite IH. reflexivity.
Qed.

Lemma existsb_eqb_In (name : string) (names : list string) :
  existsb (String.eqb name) names = true <-> In name names.
Proof.
  rewrite existsb_exists. split.
  - intros [x [Hx Heq]]. apply String.eqb_eq in Heq. subst. exact Hx.
  - intros H. exists name. split; [exact H | apply String.eqb_refl].
Qed.

Lemma col_index_absent (name : string) (cols : list (string * dtype)) :
  ~ In name (map fst cols) -> col_index name cols = None.
Proof.
  intros Hnot. destruct (col_index name cols) as [j|] eqn:E; [|reflexivity].
  destruct (col_index_sound _ _ _ E) as [dt Hcol].
  apply nth_error_In in Hcol. apply (in_map fst) in Hcol. contradiction.
Qed.

(** A column that is kept is found again after the selection, and holds in
    every row the cell it held before. *)
Lemma select_kept_column (keep : string -> bool) (name : string)
    (cols : list (string * dtype)) (j : nat) :
  keep name = true ->
  col_index name cols = Some j ->
  exists j',
    col_index name (filter (fun c => keep (fst c)) cols) = Some j' /\
    forall r : row,
      cell_at j' (select (map (fun c => keep (fst c)) cols) r) = cell_at j r.
Proof.
  intros Hkeep. unfold cell_at. revert j.
  induction cols as [|[n d] cols IH]; intros j Hj; [discriminate|].
  cbn [col_index] in Hj. cbn [filter map fst].
  destruct (String.eqb name n) eqn:E.
  - injection Hj as <-. apply String.eqb_eq in E. subst n. rewrite Hkeep.
    exists 0. cbn [col_index]. rewrite String.eqb_refl.
    split; [reflexivity|]. intros [|c r]; reflexivity.
  - destruct (col_index name cols) as [j0|]; [|discriminate].
    injection Hj as <-. destruct (IH j0 eq_refl) as [j' [Hidx Hcells]].
    destruct (keep n).
    + exists (S j'). cbn [col_index]. rewrite E, Hidx.
      split; [reflexivity|]. intros [|c r]; [reflexivity|].
      cbn [select nth]. apply Hcells.
    + exists j'. split; [exact Hidx|]. intros [|c r].
      * cbn [select nth]. destruct j'; reflexivity.
      * cbn [select nth]. apply Hcells.
Qed.

Lemma drop_columns_found (df : DataFrame) (names : list string) :
  (forall name, In name names -> In name (map fst (columns df))) ->
  drop_columns df names =
    Some {| columns :=
              filter (fun c => negb (existsb (String.eqb (fst c)) names))
                     (columns df);
            rows :=
              map (select
                     (map (fun c => negb (existsb (String.eqb (fst c)) names))
                          (columns df)))
                  (rows df) |}.
Proof.
  intros Hall. unfold drop_columns.
  assert (Hhas : forallb
                   (fun n => existsb (String.eqb n) (map fst (columns df)))
                   names = true)
    by (apply forallb_forall; intros n Hn; apply existsb_eqb_In, Hall, Hn).
  rewrite Hhas, select_filter. reflexivity.
Qed.

Lemma isnull_all_columns_are_columns (df : DataFrame) (name : string) :
  In name (isnull_all_columns df) -> In name (map fst (columns df)).
Proof. unfold isnull_all_columns. rewrite filter_In. tauto. Qed.

Lemma get_column_kept (df : DataFrame) (names : list string) (name : string) :
  In name (map fst (columns df)) ->
  ~ In name names ->
  get_column
    {| columns :=
         filter (fun c => negb (existsb (String.eqb (fst c)) names))
                (columns df);
       rows :=
         map (select
                (map (fun c => negb (existsb (String.eqb (fst c)) names))
                     (columns df)))
             (rows df) |} name =
  get_column df name.
Proof.
  intros Hin Hnot. unfold get_column, column_cells. cbn [columns rows].
  destruct (col_index_found name (columns df) Hin) as [j Hj].
  assert (Hkeep : negb (existsb (String.eqb name) names) = true).
  { apply negb_true_iff. destruct (existsb (String.eqb name) names) eqn:E;
      [|reflexivity]. apply existsb_eqb_In in E. contradiction. }
  destruct (select_kept_column
              (fun n => negb (existsb (String.eqb n) names))
              name (columns df) j Hkeep Hj) as [j' [Hidx Hcells]].
  rewrite Hj, Hidx. cbn [option_map]. f_equal. rewrite map_map.
  apply map_ext. exact Hcells.
Qed.

Lemma get_column_dropped (df : DataFrame) (names : list string) (name : string) :
  In name names ->
  col_index name
    (filter (fun c => negb (existsb (String.eqb (fst c)) names)) (columns df)) =
  None.
Proof.
  intros Hin. apply col_index_absent. intros H. apply in_map_iff in H.
  destruct H as [[n d] [Hn Hc]]. cbn [fst] in Hn. subst n.
  apply filter_In in Hc. destruct Hc as [_ Hk]. cbn [fst] in Hk.
  apply negb_true_iff in Hk.
  apply (proj2 (existsb_eqb_In name names)) in Hin. congruence.
Qed.

(** X9. A click on the remove-empty-columns button never fails with a
    [KeyError]. The table it stores has the same number of rows, has lost
    the columns named in the warning, holds every other column with the
    cells it had, and has no column left whose cells are all missing. *)
Theorem remove_empty_columns_effect (df : DataFrame) :
  exists df',
    remove_empty_columns (isnull_all_columns df) df =
      {| held := df';
         shown := [RemovedEmptyColumns (length (isnull_all_columns df))];
         ended := Rerun |} /\
    len df' = len df /\
    (forall name, In name (isnull_all_columns df) -> get_column df' name = None) /\
    (forall name,
        In name (map fst (columns df)) ->
        ~ In name (isnull_all_columns df) ->
        get_column df' name = get_column df name) /\
    isnull_all_columns df' = [].
Proof.
  pose proof (drop_columns_found df (isnull_all_columns df)
                (isnull_all_columns_are_columns df)) as Hdrop.
  eexists. unfold remove_empty_columns. rewrite Hdrop.
  split; [reflexivity|]. split; [apply length_map|]. split; [|split].
  - intros name Hin. unfold get_column. cbn [columns].
    rewrite (get_column_dropped df _ name Hin). reflexivity.
  - intros name Hin Hnot. apply get_column_kept; assumption.
  - unfold isnull_all_columns at 1. apply filter_nil_iff. intros name Hin.
    cbn [columns] in Hin. apply in_map_iff in Hin.
    destruct Hin as [[n d] [Hn Hc]]. cbn [fst] in Hn. subst n.
    apply filter_In in Hc. destruct Hc as [Hc Hk]. cbn [fst] in Hk.
    apply negb_true_iff in Hk.
    assert (Hcol : In name (map fst (columns df)))
      by (apply in_map_iff; exists (name, d); split; [reflexivity | exact Hc]).
    assert (Hnot : ~ In name (isnull_all_columns df)).
    { intros H. apply (proj2 (existsb_eqb_In name _)) in H. congruence. }
    rewrite (get_column_kept df _ name Hcol Hnot).
    destruct (match get_column df name with
              | Some cs => all (map isnull cs)
              | None => false
              end) eqn:E; [|reflexivity].
    exfalso. apply Hnot. unfold isnull_all_columns at 1. apply filter_In.
    split; [exact Hcol | exact E].
Qed.

(** ** Whole runs of the script *)

Lemma ended_and_then (a : step) (k : DataFrame -> step) :
  ended (a >>= k) =
  match ended a with
  | Continue => ended (k (held a))
  | e => e
  end.
Proof.
  unfold and_then. destruct (ended a) eqn:E; try reflexivity; exact E.
Qed.

Lemma held_and_then (a : step) (k : DataFrame -> step) :
  held (a >>= k) =
  match ended a with
  | Continue => held (k (held a))
  | _ => held a
  end.
Proof. unfold and_then. destruct (ended a); reflexivity. Qed.

Lemma and_then_not_raised (a : step) (k : DataFrame -> step) :
  ended a <> Raised -> ended (k (held a)) <> Raised ->
  ended (a >>= k) <> Raised.
Proof.
  intros Ha Hk. rewrite ended_and_then.
  destruct (ended a); [exact Hk | discriminate | discriminate | exact Ha].
Qed.

Lemma on_click_not_raised (b : button) (click : option button)
    (h : DataFrame -> step) (df : DataFrame) :
  ended (h df) <> Raised -> ended (on_click b click h df) <> Raised.
Proof.
  intros Hh. unfold on_click. destruct (pressed b click);
    [exact Hh | discriminate].
Qed.

Lemma remove_empty_columns_not_raised (df : DataFrame) :
  ended (remove_empty_columns (isnull_all_columns df) df) <> Raised.
Proof.
  unfold remove_empty_columns.
  rewrite (drop_columns_found df (isnull_all_columns df)
             (isnull_all_columns_are_columns df)).
  discriminate.
Qed.

Lemma empty_columns_block_not_raised (click : option button) (df : DataFrame) :
  ended (empty_columns_block click df) <> Raised.
Proof.
  unfold empty_columns_block.
  pose proof (remove_empty_columns_not_raised df) as Hd.
  destruct (isnull_all_columns df) as [|c cols]; [discriminate|].
  apply and_then_not_raised; [discriminate|].
  apply on_click_not_raised. exact Hd.
Qed.

Lemma missing_values_section_not_raised (click : option button) (df : DataFrame) :
  ended (missing_values_section click df) <> Raised.
Proof.
  unfold missing_values_section.
  destruct (length (missing_data df) =? 0); [discriminate|].
  apply and_then_not_raised; [apply and_then_not_raised;
    [apply and_then_not_raised; [discriminate|]|]|].
  - apply empty_columns_block_not_raised.
  - apply on_click_not_raised. unfold delete_rows_with_missing.
    destruct (len (dropna _) =? 0); discriminate.
  - apply on_click_not_raised. discriminate.
Qed.

Lemma duplicates_section_not_raised (click : option button) (df : DataFrame) :
  ended (duplicates_section click df) <> Raised.
Proof.
  unfold duplicates_section. destruct (duplicate_count df =? 0); [discriminate|].
  apply and_then_not_raised; [discriminate|].
  apply on_click_not_raised. discriminate.
Qed.

(** X10. No run of the cleaning tab ends in an exception of the script's
    own: the columns handed to [drop] are always columns of the table, so its
    [KeyError] cannot occur, and after lines 46-47 the session always holds
    a table, whether or not it held one before. *)
Theorem script_never_raises (data : DataFrame) (click : option button)
    (st : SessionState) :
  outcome (script data click st) <> Raised /\
  exists df, session (script data click st) = Some df.
Proof.
  unfold script.
  destruct (initialize data st) as [df|] eqn:E;
    [|destruct st; discriminate E].
  cbn [outcome session]. split; [|eexists; reflexivity].
  apply and_then_not_raised; [apply and_then_not_raised|].
  - apply missing_values_section_not_raised.
  - apply duplicates_section_not_raised.
  - discriminate.
Qed.

Lemma select_incl {A : Type} (mask : list bool) (xs : list A) :
  incl (select mask xs) xs.
Proof.
  revert mask. induction xs as [|x xs IH]; intros [|b mask] y Hy;
    try contradiction.
  cbn [select] in Hy. destruct b.
  - destruct Hy as [<- | Hy]; [left; reflexivity | right; exact (IH mask y Hy)].
  - right. exact (IH mask y Hy).
Qed.

Lemma select_length_le {A : Type} (mask : list bool) (xs : list A) :
  length (select mask xs) <= length xs.
Proof.
  revert mask. induction xs as [|x xs IH]; intros [|b mask]; cbn [select length];
    try lia.
  specialize (IH mask). destruct b; cbn [length]; lia.
Qed.

Lemma pressed_true (b : button) (click : option button) :
  pressed b click = true -> click = Some b.
Proof.
  destruct click as [b'|]; [|discriminate].
  destruct b, b'; try discriminate; reflexivity.
Qed.

Lemma held_delete_rows (df : DataFrame) :
  held (delete_rows_with_missing df) = dropna df.
Proof.
  unfold delete_rows_with_missing. destruct (len (dropna df) =? 0); reflexivity.
Qed.

Section RunInvariant.

(** A relation between the table a run starts from and the table it
    leaves, kept by every handler the click can reach. *)
Variable click : option button.
Variable R : DataFrame -> DataFrame -> Prop.
Hypothesis R_refl : forall df, R df df.
Hypothesis R_trans : forall a b c, R a b -> R b c -> R a c.
Hypothesis R_remove :
  pressed RemoveEmptyColumns click = true ->
  forall cols df, R df (held (remove_empty_columns cols df)).
Hypothesis R_delete :
  pressed DeleteRowsWithMissing click = true -> forall df, R df (dropna df).
Hypothesis R_fill :
  pressed FillMissingValues click = true -> forall df, R df (fill_missing df).
Hypothesis R_dedup :
  pressed RemoveDuplicateRows click = true ->
  forall df, R df (drop_duplicates df).

Lemma and_then_related (a : step) (k : DataFrame -> step) (df : DataFrame) :
  R df (held a) -> R (held a) (held (k (held a))) -> R df (held (a >>= k)).
Proof.
  intros Ha Hk. rewrite held_and_then.
  destruct (ended a); [exact (R_trans _ _ _ Ha Hk) | exact Ha ..].
Qed.

Lemma on_click_related (b : button) (h : DataFrame -> step) (df : DataFrame) :
  (pressed b click = true -> R df (held (h df))) ->
  R df (held (on_click b click h df)).
Proof.
  intros Hh. unfold on_click. destruct (pressed b click);
    [apply Hh; reflexivity | apply R_refl].
Qed.

Lemma empty_columns_block_related (df : DataFrame) :
  R df (held (empty_columns_block click df)).
Proof.
  unfold empty_columns_block.
  destruct (isnull_all_columns df) as [|c cols]; [apply R_refl|].
  apply and_then_related; [apply R_refl|].
  apply on_click_related. intros Hp. apply R_remove, Hp.
Qed.

Lemma missing_values_section_related (df : DataFrame) :
  R df (held (missing_values_section click df)).
Proof.
  unfold missing_values_section.
  destruct (length (missing_data df) =? 0); [apply R_refl|].
  apply and_then_related; [apply and_then_related;
    [apply and_then_related; [apply R_refl|]|]|].
  - apply empty_columns_block_related.
  - apply on_click_related. intros Hp. rewrite held_delete_rows.
    apply R_delete, Hp.
  - apply on_click_related. intros Hp. apply R_fill, Hp.
Qed.

Lemma duplicates_section_related (df : DataFrame) :
  R df (held (duplicates_section click df)).
Proof.
  unfold duplicates_section.
  destruct (duplicate_count df =? 0); [apply R_refl|].
  apply and_then_related; [apply R_refl|].
  apply on_click_related. intros Hp. apply R_dedup, Hp.
Qed.

Lemma script_related (data df : DataFrame) :
  exists df', session (script data click (Some df)) = Some df' /\ R df df'.
Proof.
  unfold script, initialize. cbn [session]. eexists. split; [reflexivity|].
  apply and_then_related; [apply and_then_related|].
  - apply missing_values_section_related.
  - apply duplicates_section_related.
  - apply R_refl.
Qed.

End RunInvariant.

(** X11. No run adds anything to the table held in the session: the table
    a run leaves has at most as many rows as the one it started from, and
    its columns are among the columns it had. Only the remove-empty-columns
    button changes the columns, and only the delete-rows and
    remove-duplicates buttons change the number of rows. *)
Theorem script_never_grows (data df : DataFrame) (click : option button) :
  exists df',
    session (script data click (Some df)) = Some df' /\
    len df' <= len df /\
    incl (columns df') (columns df) /\
    (click <> Some RemoveEmptyColumns -> columns df' = columns df) /\
    (click <> Some DeleteRowsWithMissing ->
     click <> Some RemoveDuplicateRows ->
     len df' = len df).
Proof.
  apply (script_related click
           (fun a b =>
              len b <= len a /\
              incl (columns b) (columns a) /\
              (click <> Some RemoveEmptyColumns -> columns b = columns a) /\
              (click <> Some DeleteRowsWithMissing ->
               click <> Some RemoveDuplicateRows ->
               len b = len a))).
  - intros a. repeat split; [lia | apply incl_refl].
  - intros a b c [Hl1 [Hi1 [Hc1 Hn1]]] [Hl2 [Hi2 [Hc2 Hn2]]].
    split; [lia|]. split; [exact (incl_tran Hi2 Hi1)|]. split.
    + intros H. rewrite (Hc2 H). apply Hc1, H.
    + intros H H'. rewrite (Hn2 H H'). apply Hn1; assumption.
  - intros Hp cols a. apply pressed_true in Hp. unfold remove_empty_columns.
    destruct (drop_columns a cols) as [a'|] eqn:E; cbn [held].
    + unfold drop_columns in E.
      destruct (forallb _ cols); [|discriminate].
      injection E as <-. unfold len. cbn [rows columns]. rewrite length_map.
      split; [apply le_n|]. split; [apply select_incl|].
      split; [intros H; contradiction|]. reflexivity.
    + repeat split; [lia | apply incl_refl].
  - intros Hp a. apply pressed_true in Hp.
    split; [apply filter_length_le|]. split; [apply incl_refl|].
    split; [reflexivity|]. intros H. contradiction.
  - intros Hp a. apply pressed_true in Hp.
    assert (Hlen : len (fill_missing a) = len a)
      by (unfold len; rewrite rows_fill_missing; apply length_map).
    split; [lia|]. split; [apply incl_refl|]. split; [reflexivity|].
    intros _ _. exact Hlen.
  - intros Hp a. apply pressed_true in Hp.
    split; [apply select_length_le|]. split; [apply incl_refl|].
    split; [reflexivity|]. intros _ H. contradiction.
Qed.

Lemma script_clean (data df : DataFrame) (click : option button) :
  missing_data df = [] ->
  duplicate_count df = 0 ->
  script data click (Some df) =
    {| session := Some df;
       page := [NoMissingValues; NoDuplicates; Download df];
       outcome := Continue |}.
Proof.
  intros Hmd Hdc. unfold script, initialize, missing_values_section.
  rewrite Hmd. cbn [length Nat.eqb and_then display held shown ended].
  unfold duplicates_section. rewrite Hdc. reflexivity.
Qed.

Lemma NoDup_duplicate_count (df : DataFrame) :
  NoDup (rows df) -> duplicate_count df = 0.
Proof. intros Hnd. apply duplicate_count_zero. right. exact Hnd. Qed.

(** X12. A table with one cell per column in every row, no missing cell
    and no two equal rows is a fixed point of the page: whatever button the
    click names, the run shows that nothing is missing and nothing is
    duplicated, offers the download, and leaves the table as it is. *)
Theorem clean_table_is_fixed (df : DataFrame)
    (Hrect : rectangular df)
    (Hcomplete : complete df)
    (Hnodup : NoDup (rows df)) :
  forall data click,
    script data click (Some df) =
      {| session := Some df;
         page := [NoMissingValues; NoDuplicates; Download df];
         outcome := Continue |}.
Proof.
  intros data click. apply script_clean.
  - apply (proj1 (complete_missing_data df Hrect)), Hcomplete.
  - apply NoDup_duplicate_count, Hnodup.
Qed.

Lemma clean_table_is_fixed_witness :
  session (script scenario_fill (Some DeleteRowsWithMissing)
                  (Some (dropna scenario_fill))) =
  Some (dropna scenario_fill).
Proof.
  refine (f_equal session
            (clean_table_is_fixed (dropna scenario_fill)
               (dropna_rectangular _ scenario_fill_rectangular)
               (dropna_complete _) _
               scenario_fill (Some DeleteRowsWithMissing))).
  apply (proj1 (proj1 (duplicated_none [] (rows (dropna scenario_fill)))
                  eq_refl)).
Defined.


